(** * QuickFeed / aguis: user sanitising, SCM factory and the web handlers

    A shallow embedding of
      - [ag/util.go]      (RemoveRemoteID and its collection variants),
      - [scm/scm.go]      (the SCM interface and NewSCMClient),
      - [web/users.go]    (GetSelf, GetUser, GetUsers),
      - [web/courses.go]  (NewCourseRequest.valid, ListCourses, NewCourse),
      - [main.go]         (getCallbackURL, envString, withProvider),
      - [CourseForm.tsx]  (courseValidate, setButtonString),
    followed by the properties of the specification that concern them.

    Go values are modelled as follows.  [uint64] and [uint] are [N]; a Go
    [string] is a [string]; a slice is a [list] (a nil slice and an empty one
    both have length 0 and are both []); a pointer to a user is a location
    in a heap of users, or nil; a function returning [(T, error)] returns a
    sum [error + T]; an interface is a record of its methods. *)

From Stdlib Require Import Ascii.
From stdpp Require Import gmap strings list fin_maps.

Definition uint64 : Type := N.
Definition uint : Type := N.

(** ** Package ag: users, groups and the identity-stripping transform *)

Module ag.

(** Locations of [User] structs; [None] is Go's nil pointer. *)
Definition loc : Type := positive.
Definition ptr : Type := option loc.

(** Modelled from the spec: the struct is generated code that is not part
    of this source.  The identity a provider knows a user by: provider
    name, remote user id, and that provider's access token. *)
Record RemoteIdentity : Type := mkRemoteIdentity {
  Provider : string;
  RemoteID : uint64;
  AccessToken : string
}.

Section WithProfile.

(** The fields of the generated [User] struct that this code never reads
    (name, e-mail, ...) are kept as one opaque component. *)
Variable Profile : Type.

(** Modelled from the spec: the struct is generated code that is not part
    of this source.  A user has an id, owns its remote identities (the
    field [RemoteIdentities] that [RemoveRemoteID] assigns), and has the
    remaining fields [profile]. *)
Record User : Type := mkUser {
  ID : uint64;
  profile : Profile;
  RemoteIdentities : list RemoteIdentity
}.

(** Modelled from the spec: generated structs again, reduced to what the
    loops read.  [Users], [Group] and [Groups] hold pointers: [[]*User] and
    [[]*Group].  A group is never written to, so a [*Group] is modelled by
    its value, nil by [None]. *)
Record Users : Type := mkUsers { Users_Users : list ptr }.
Record Group : Type := mkGroup { Group_Users : list ptr }.
Record Groups : Type := mkGroups { Groups_Groups : list (option Group) }.

(** The generated accessors [GetUsers] and [GetGroups] are nil-safe: on a
    nil receiver they return a nil slice. *)
Definition Users_GetUsers (u : option Users) : list ptr :=
  match u with Some x => Users_Users x | None => [] end.

Definition Group_GetUsers (g : option Group) : list ptr :=
  match g with Some x => Group_Users x | None => [] end.

Definition Groups_GetGroups (g : option Groups) : list (option Group) :=
  match g with Some x => Groups_Groups x | None => [] end.

(** The heap of users.  A computation on it either finishes with a new heap
    or panics ([None]) on a nil dereference. *)
Abbreviation Heap := (gmap loc User).

(** [u.RemoteIdentities = make([]*RemoteIdentity, 0)] on the struct [u]. *)
Definition void (u : User) : User :=
  {| ID := ID u; profile := profile u; RemoteIdentities := [] |}.

(** func (u *User) RemoveRemoteID() *)
Definition RemoveRemoteID (u : ptr) (h : Heap) : option Heap :=
  l ← u;
  usr ← h !! l;
  Some (<[l := void usr]> h).

(** [for _, x := range xs { body(x) }] *)
Fixpoint for_range {A : Type} (body : A → Heap → option Heap)
    (xs : list A) (h : Heap) : option Heap :=
  match xs with
  | [] => Some h
  | x :: rest => h' ← body x h; for_range body rest h'
  end.

(** func (u *Users) RemoveRemoteIDs() *)
Definition Users_RemoveRemoteIDs (u : option Users) (h : Heap) : option Heap :=
  for_range RemoveRemoteID (Users_GetUsers u) h.

(** func (g *Group) RemoveRemoteIDs() *)
Definition Group_RemoveRemoteIDs (g : option Group) (h : Heap) : option Heap :=
  for_range RemoveRemoteID (Group_GetUsers g) h.

(** func (g *Groups) RemoveRemoteIDs() *)
Definition Groups_RemoveRemoteIDs (g : option Groups) (h : Heap) : option Heap :=
  for_range Group_RemoveRemoteIDs (Groups_GetGroups g) h.

(** *** Vocabulary of the properties *)

(** A pointer that can be dereferenced in [h]. *)
Definition live (h : Heap) (p : ptr) : Prop :=
  ∃ l, p = Some l ∧ is_Some (h !! l).

(** The user [p] points to holds no remote identity. *)
Definition stripped (h : Heap) (p : ptr) : Prop :=
  ∃ l u, p = Some l ∧ h !! l = Some u ∧ RemoteIdentities u = [].

(** Two users that agree on every field but [RemoteIdentities]. *)
Definition same_but_ids (u u' : User) : Prop :=
  ID u' = ID u ∧ profile u' = profile u.

(** Every user of [h] is still there in [h'], with at most its
    [RemoteIdentities] changed, and [h'] holds no other user. *)
Definition frame (h h' : Heap) : Prop :=
  dom h' = dom h ∧
  ∀ l u, h !! l = Some u → ∃ u', h' !! l = Some u' ∧ same_but_ids u u'.

(** All user pointers reachable from a [Groups] value. *)
Definition Groups_members (g : option Groups) : list ptr :=
  concat (Group_GetUsers <$> Groups_GetGroups g).

End WithProfile.

Arguments mkUser {Profile}.
Arguments ID {Profile}.
Arguments profile {Profile}.
Arguments RemoteIdentities {Profile}.
Arguments void {Profile}.
Arguments RemoveRemoteID {Profile}.
Arguments for_range {Profile A}.
Arguments Users_RemoveRemoteIDs {Profile}.
Arguments Group_RemoveRemoteIDs {Profile}.
Arguments Groups_RemoveRemoteIDs {Profile}.
Arguments live {Profile}.
Arguments stripped {Profile}.
Arguments same_but_ids {Profile}.
Arguments frame {Profile}.

End ag.

(** ** Go's [error] values and [strconv.ParseUint] *)

(** The errors this code creates, compares with or passes on. *)
Inductive NumErr : Type := ErrSyntax | ErrRange.

Inductive error : Type :=
  | errors_New (msg : string)                        (* errors.New(msg) *)
  | NewHTTPError (code : N) (msg : string)          (* echo.NewHTTPError *)
  | ErrRecordNotFound                                (* gorm.ErrRecordNotFound *)
  | NumError (func num : string) (e : NumErr).      (* *strconv.NumError *)

Definition StatusOK : N := 200.
Definition StatusCreated : N := 201.
Definition StatusFound : N := 302.
Definition StatusBadRequest : N := 400.
Definition StatusNotFound : N := 404.

Module strconv.

Definition maxUint64 : N := 2 ^ 64 - 1.

(** Arithmetic on [uint64] wraps around. *)
Definition wrap64 (n : N) : N := n mod 2 ^ 64.

(** The value of a byte as a digit of base 10, if it is one.  (A letter is
    a digit of a larger base, which [ParseUint] refuses in base 10.) *)
Definition digit (c : ascii) : option N :=
  let b := N_of_ascii c in
  if (48 <=? b)%N && (b <=? 57)%N then Some (b - 48)%N else None.

(** The loop of [ParseUint] for base 10 and bit size 64, with [n] the value
    read so far.  The result is the error kind, or the number. *)
Fixpoint ParseUint_loop (s : string) (n : N) : NumErr + N :=
  match s with
  | EmptyString => inr n
  | String c rest =>
      match digit c with
      | None => inl ErrSyntax
      | Some d =>
          (* cutoff = maxUint64/10 + 1: n*10 overflows from there on *)
          if (maxUint64 / 10 + 1 <=? n)%N then inl ErrRange
          else
            let n10 := wrap64 (n * 10) in
            let n1 := wrap64 (n10 + d) in
            if (n1 <? n10)%N || (maxUint64 <? n1)%N then inl ErrRange
            else ParseUint_loop rest n1
      end
  end.

(** [strconv.ParseUint(s, 10, 64)] *)
Definition ParseUint (s : string) : error + uint64 :=
  match s with
  | EmptyString => inl (NumError "ParseUint" s ErrSyntax)
  | _ =>
      match ParseUint_loop s 0 with
      | inl e => inl (NumError "ParseUint" s e)
      | inr n => inr n
      end
  end.

(** [strconv.FormatUint(n, 10)]: the decimal numeral of [n], from its last
    digit to its first; a [uint64] has at most 20 digits. *)
Definition digit_char (d : N) : ascii := ascii_of_N (48 + d).

Fixpoint FormatUint_loop (fuel : nat) (n : N) (acc : string) : string :=
  match fuel with
  | O => acc
  | S fuel =>
      let acc := String (digit_char (n mod 10)) acc in
      if (n <? 10)%N then acc else FormatUint_loop fuel (n / 10) acc
  end.

Definition FormatUint (n : uint64) : string := FormatUint_loop 20 n EmptyString.

(** *** Decimal numerals, to say what [ParseUint] accepts *)

(** Every byte of [s] is one of 0..9. *)
Fixpoint all_digits (s : string) : bool :=
  match s with
  | EmptyString => true
  | String c rest =>
      match digit c with Some _ => all_digits rest | None => false end
  end.

(** The number the digits of [s] denote, after the digits that gave [n]. *)
Fixpoint decimal_value (s : string) (n : N) : N :=
  match s with
  | EmptyString => n
  | String c rest => decimal_value rest (n * 10 + default 0%N (digit c))
  end.

(** The number a numeral denotes when it fits a [uint64]: [s] is not empty,
    consists of digits (leading zeros are fine), and its value is below
    2^64. *)
Definition numeral (s : string) : option uint64 :=
  match s with
  | EmptyString => None
  | _ =>
      if all_digits s && (decimal_value s 0 <? 2 ^ 64)%N
      then Some (decimal_value s 0) else None
  end.

End strconv.

(** ** Package scm: the provider abstraction and its factory *)

Module scm.

(** An entity that manages repositories: a GitHub organisation or a GitLab
    group. *)
Record Directory : Type := mkDirectory {
  ID : uint64;
  Name : string;
  Avatar : string
}.

Record CreateDirectoryOptions : Type := mkCreateDirectoryOptions {
  Path : string;
  opt_Name : string
}.

(** The [SCM] interface.  A client is bound to one access token; a call
    either returns its result or an error (a time-out of the request's
    context included). *)
Record SCM : Type := mkSCM {
  ListDirectories : error + list Directory;
  CreateDirectory : CreateDirectoryOptions → error + Directory;
  GetDirectory : uint64 → error + Directory
}.

(** type ErrNotSupported struct, and func (e ErrNotSupported) Error() string *)
Record ErrNotSupported : Type := mkErrNotSupported {
  err_SCM : string;
  err_Method : string
}.

Definition ErrNotSupported_Error (e : ErrNotSupported) : string :=
  "method" +:+ err_Method e +:+ " not supported by " +:+ err_SCM e +:+ " SCM".

Section Factory.

(** The constructors of the two adapters live in files of their own. *)
Variables NewGithubSCMClient NewGitlabSCMClient : string → SCM.

(** func NewSCMClient(provider, token string) (SCM, error): the pair Go
    returns, with nil as [None]. *)
Definition NewSCMClient (provider token : string) : option SCM * option error :=
  if String.eqb provider "github" then (Some (NewGithubSCMClient token), None)
  else if String.eqb provider "gitlab" then (Some (NewGitlabSCMClient token), None)
  else (None, Some (errors_New ("invalid provider: " +:+ provider))).

End Factory.

End scm.

(** ** Package models: the course record *)

Module models.

(** Modelled from the spec: the declaration of the struct is not part of
    this source.  The fields are those [NewCourse] fills in, and the row id
    that the database assigns. *)
Record Course : Type := mkCourse {
  ID : uint64;
  Name : string;
  Code : string;
  Year : uint;
  Tag : string;
  Provider : string;
  DirectoryID : uint64
}.

End models.

(** ** Package web: the handlers *)

Module web.

(** type NewCourseRequest struct *)
Record NewCourseRequest : Type := mkNewCourseRequest {
  Name : string;
  Code : string;
  Year : uint;
  Tag : string;
  Provider : string;
  DirectoryID : uint64
}.

(** func (cr *NewCourseRequest) valid() bool, with a nil receiver as [None] *)
Definition valid (cr : option NewCourseRequest) : bool :=
  match cr with
  | None => false
  | Some cr =>
      negb (String.eqb (Name cr) "") &&
      negb (String.eqb (Code cr) "") &&
      (String.eqb (Provider cr) "github" || String.eqb (Provider cr) "gitlab") &&
      negb (DirectoryID cr =? 0)%N &&
      negb (Year cr =? 0)%N &&
      negb (String.eqb (Tag cr) "")
  end.

Section Handlers.

Variable Profile : Type.

Abbreviation User := (ag.User Profile).

(** Modelled from the spec: the [database.Database] interface is declared
    outside this source; these are the methods the handlers call.  A query
    reads the state [conn]; the insert returns the new state and either an
    error or the id it gave the row (the handler passes a pointer to the
    record, and the response shows the id filled in). *)
Record Database : Type := mkDatabase {
  conn : Type;
  db_GetUser : conn → uint64 → error + User;
  db_GetUsers : conn → error + list User;
  db_GetCourses : conn → error + list models.Course;
  db_GetCoursesForUser : conn → uint64 → error + list models.Course;
  db_CreateCourse : conn → models.Course → conn * (error + uint64)
}.

(** What an earlier middleware stored in the request's context with
    [c.Set]: the caller, and an SCM client under the provider's name. *)
Inductive Value : Type :=
  | UserValue (u : User)
  | SCMValue (s : scm.SCM).

(** The part of [echo.Context] the handlers read: path parameters, query
    parameters, the stored values, and what [c.Bind] decodes from the
    body. *)
Record Context : Type := mkContext {
  params : gmap string string;
  query : gmap string string;
  store : gmap string Value;
  body : error + NewCourseRequest
}.

(** [c.Param] and [c.QueryParam] return the empty string for a name that
    is absent; [c.Get] returns nil. *)
Definition Param (c : Context) (name : string) : string :=
  default "" (params c !! name).

Definition QueryParam (c : Context) (name : string) : string :=
  default "" (query c !! name).

Definition Get (c : Context) (key : string) : option Value :=
  store c !! key.

Definition Bind (c : Context) : error + NewCourseRequest := body c.

(** What is marshalled into a response. *)
Inductive Payload : Type :=
  | NoContent
  | JSON_User (u : User)
  | JSON_Users (us : list User)
  | JSON_Course (c : models.Course)
  | JSON_Courses (cs : list models.Course).

(** How a handler ends: it wrote a response or a redirect and returned
    nil, it returned an error (which the server turns into an error
    response), or it panicked on a failed type assertion. *)
Inductive Outcome : Type :=
  | Responded (status : N) (p : Payload)
  | Redirected (status : N) (url : string)
  | Failed (err : error)
  | Panicked.

(** func GetSelf() echo.HandlerFunc *)
Definition GetSelf (c : Context) : Outcome :=
  match Get c "user" with
  | Some (UserValue user) =>
      Redirected StatusFound ("/api/v1/users/" +:+ strconv.FormatUint (ag.ID user))
  | Some (SCMValue _) | None => Panicked
  end.

(** func GetUser(db database.Database) echo.HandlerFunc *)
Definition GetUser (D : Database) (db : conn D) (c : Context) : Outcome :=
  match strconv.ParseUint (Param c "id") with
  | inl _ => Failed (NewHTTPError StatusBadRequest "invalid user id")
  | inr id =>
      if (id =? 0)%N then Failed (NewHTTPError StatusBadRequest "invalid user id")
      else
        match db_GetUser D db id with
        | inl ErrRecordNotFound => Responded StatusNotFound NoContent
        | inl err => Failed err
        | inr user => Responded StatusFound (JSON_User user)
        end
  end.

(** func GetUsers(db database.Database) echo.HandlerFunc *)
Definition GetUsers (D : Database) (db : conn D) (c : Context) : Outcome :=
  match db_GetUsers D db with
  | inl ErrRecordNotFound => Responded StatusNotFound NoContent
  | inl err => Failed err
  | inr users => Responded StatusFound (JSON_Users users)
  end.

(** func ListCourses(db database.Database) echo.HandlerFunc *)
Definition ListCourses (D : Database) (db : conn D) (c : Context) : Outcome :=
  match strconv.ParseUint (QueryParam c "user") with
  | inl err => Failed err
  | inr id =>
      let courses :=
        if (0 <? id)%N then db_GetCoursesForUser D db id else db_GetCourses D db in
      match courses with
      | inl err => Failed err
      | inr courses => Responded StatusOK (JSON_Courses courses)
      end
  end.

(** The calls [NewCourse] makes to its collaborators, in order. *)
Inductive Call : Type :=
  | Call_GetDirectory (provider : string) (id : uint64)
  | Call_CreateCourse (course : models.Course).

(** func NewCourse(db database.Database) echo.HandlerFunc: the state of the
    database after the request, the calls made, and the outcome. *)
Definition NewCourse (D : Database) (db : conn D) (c : Context)
    : conn D * list Call * Outcome :=
  match Bind c with
  | inl err => (db, [], Failed err)
  | inr cr =>
      if negb (valid (Some cr)) then
        (db, [], Failed (NewHTTPError StatusBadRequest "invalid payload"))
      else
        match Get c (Provider cr) with
        | None =>
            (db, [], Failed (NewHTTPError StatusBadRequest
                               ("provider " +:+ Provider cr +:+ " not registered")))
        | Some (UserValue _) => (db, [], Panicked)
        | Some (SCMValue s) =>
            let called := [Call_GetDirectory (Provider cr) (DirectoryID cr)] in
            match scm.GetDirectory s (DirectoryID cr) with
            | inl err => (db, called, Failed err)
            | inr directory =>
                let course :=
                  {| models.ID := 0%N;
                     models.Name := Name cr;
                     models.Code := Code cr;
                     models.Year := Year cr;
                     models.Tag := Tag cr;
                     models.Provider := Provider cr;
                     models.DirectoryID := scm.ID directory |} in
                let called := called ++ [Call_CreateCourse course] in
                match db_CreateCourse D db course with
                | (db', inl err) => (db', called, Failed err)
                | (db', inr id) =>
                    (db', called,
                     Responded StatusCreated
                       (JSON_Course
                          {| models.ID := id;
                             models.Name := models.Name course;
                             models.Code := models.Code course;
                             models.Year := models.Year course;
                             models.Tag := models.Tag course;
                             models.Provider := models.Provider course;
                             models.DirectoryID := models.DirectoryID course |}))
                end
            end
        end
  end.

(** *** Vocabulary of the properties of [NewCourse] *)

(** The request passed every step up to and including the directory lookup,
    which answered [d]. *)
Definition directory_verified (c : Context) (cr : NewCourseRequest)
    (d : scm.Directory) : Prop :=
  Bind c = inr cr ∧ valid (Some cr) = true ∧
  ∃ s, Get c (Provider cr) = Some (SCMValue s) ∧
       scm.GetDirectory s (DirectoryID cr) = inr d.

(** A required field is missing: Go decodes an absent field as its zero
    value. *)
Definition missing_field (cr : NewCourseRequest) : Prop :=
  Name cr = "" ∨ Code cr = "" ∨ Tag cr = "" ∨ Year cr = 0%N ∨
  DirectoryID cr = 0%N ∨ Provider cr ∉ ["github"; "gitlab"].

(** The directory cannot be reached with the caller's token: there is no
    client for the provider, or the lookup fails. *)
Definition unreachable (c : Context) (cr : NewCourseRequest) : Prop :=
  Get c (Provider cr) = None ∨
  ∃ s err, Get c (Provider cr) = Some (SCMValue s) ∧
           scm.GetDirectory s (DirectoryID cr) = inl err.

(** The record [NewCourse] hands to the database. *)
Definition course_of (cr : NewCourseRequest) (d : scm.Directory) : models.Course :=
  {| models.ID := 0%N;
     models.Name := Name cr;
     models.Code := Code cr;
     models.Year := Year cr;
     models.Tag := Tag cr;
     models.Provider := Provider cr;
     models.DirectoryID := scm.ID d |}.

(** The access tokens a payload carries. *)
Definition User_tokens (u : User) : list string :=
  ag.AccessToken <$> ag.RemoteIdentities u.

Definition Payload_tokens (p : Payload) : list string :=
  match p with
  | JSON_User u => User_tokens u
  | JSON_Users us => concat (User_tokens <$> us)
  | NoContent | JSON_Course _ | JSON_Courses _ => []
  end.

Definition Outcome_tokens (o : Outcome) : list string :=
  match o with
  | Responded _ p => Payload_tokens p
  | Redirected _ _ | Failed _ | Panicked => []
  end.

End Handlers.

Arguments mkDatabase {Profile}.
Arguments conn {Profile}.
Arguments db_GetUser {Profile}.
Arguments db_GetUsers {Profile}.
Arguments db_GetCourses {Profile}.
Arguments db_GetCoursesForUser {Profile}.
Arguments db_CreateCourse {Profile}.
Arguments UserValue {Profile}.
Arguments SCMValue {Profile}.
Arguments mkContext {Profile}.
Arguments params {Profile}.
Arguments query {Profile}.
Arguments store {Profile}.
Arguments body {Profile}.
Arguments Param {Profile}.
Arguments QueryParam {Profile}.
Arguments Get {Profile}.
Arguments Bind {Profile}.
Arguments NoContent {Profile}.
Arguments JSON_User {Profile}.
Arguments JSON_Users {Profile}.
Arguments JSON_Course {Profile}.
Arguments JSON_Courses {Profile}.
Arguments Responded {Profile}.
Arguments Redirected {Profile}.
Arguments GetSelf {Profile}.
Arguments Failed {Profile}.
Arguments Panicked {Profile}.
Arguments GetUser {Profile}.
Arguments GetUsers {Profile}.
Arguments ListCourses {Profile}.
Arguments NewCourse {Profile}.
Arguments User_tokens {Profile}.
Arguments Payload_tokens {Profile}.
Arguments Outcome_tokens {Profile}.
Arguments directory_verified {Profile}.
Arguments unreachable {Profile}.

End web.

(** ** A database and two providers to run the handlers on *)

Module memdb.

Section Store.

Variable Profile : Type.

(** Modelled from the spec: the persistence layer (package database) is
    outside this code.  This store stands for it: rows of users and
    courses, the enrolments as pairs (user id, course id), a missing row
    reported as [gorm.ErrRecordNotFound], and an insert that gives the new
    row the next free id. *)
Record State : Type := mkState {
  users : list (ag.User Profile);
  courses : list models.Course;
  enrollments : list (uint64 * uint64)
}.

Definition GetUser (st : State) (id : uint64) : error + ag.User Profile :=
  match List.find (λ u, (ag.ID u =? id)%N) (users st) with
  | Some u => inr u
  | None => inl ErrRecordNotFound
  end.

Definition GetUsers (st : State) : error + list (ag.User Profile) :=
  inr (users st).

Definition GetCourses (st : State) : error + list models.Course :=
  inr (courses st).

Definition enrolled (st : State) (user : uint64) (c : models.Course) : bool :=
  bool_decide ((user, models.ID c) ∈ enrollments st).

Definition GetCoursesForUser (st : State) (user : uint64)
    : error + list models.Course :=
  inr (List.filter (enrolled st user) (courses st)).

Definition CreateCourse (st : State) (c : models.Course)
    : State * (error + uint64) :=
  let id := N.of_nat (S (length (courses st))) in
  let row :=
    {| models.ID := id;
       models.Name := models.Name c;
       models.Code := models.Code c;
       models.Year := models.Year c;
       models.Tag := models.Tag c;
       models.Provider := models.Provider c;
       models.DirectoryID := models.DirectoryID c |} in
  ({| users := users st; courses := courses st ++ [row];
      enrollments := enrollments st |}, inr id).

Definition DB : web.Database Profile :=
  {| web.conn := State;
     web.db_GetUser := GetUser;
     web.db_GetUsers := GetUsers;
     web.db_GetCourses := GetCourses;
     web.db_GetCoursesForUser := GetCoursesForUser;
     web.db_CreateCourse := CreateCourse |}.

End Store.

Arguments mkState {Profile}.
Arguments users {Profile}.
Arguments courses {Profile}.
Arguments enrollments {Profile}.

(** A client whose token reaches a fixed list of directories:
    [GetDirectory] looks the id up among them. *)
Definition lookupSCM (dirs : list scm.Directory) : scm.SCM :=
  {| scm.ListDirectories := inr dirs;
     scm.CreateDirectory := λ _, inl (errors_New "not supported");
     scm.GetDirectory := λ id,
       match List.find (λ d, (scm.ID d =? id)%N) dirs with
       | Some d => inr d
       | None => inl (errors_New "directory not found")
       end |}.

End memdb.

(** ** Package main: the helpers of the server's set-up *)

Module main.

(** func getCallbackURL(baseURL string, provider string) string *)
Definition getCallbackURL (baseURL provider : string) : string :=
  "https://" +:+ baseURL +:+ "/auth/" +:+ provider +:+ "/callback".

(** func envString(env, fallback string) string, with the process
    environment as a map; [os.Getenv] gives the empty string for a variable
    that is not set. *)
Definition Getenv (environ : gmap string string) (key : string) : string :=
  default "" (environ !! key).

Definition envString (environ : gmap string string) (env fallback : string)
    : string :=
  let e := Getenv environ env in
  if String.eqb e "" then fallback else e.

Section Middleware.

Variable Profile : Type.

(** func withProvider(next echo.HandlerFunc) echo.HandlerFunc.  The query
    of the request's URL is kept decoded, as the map from a name to the
    value [QueryParam] reads: [qv.Set] replaces the values of the name by
    the one given, and writing [qv.Encode()] back to [RawQuery] makes that
    the query every later reader decodes. *)
Definition withProvider {R : Type} (next : web.Context Profile → R)
    (c : web.Context Profile) : R :=
  let qv := web.query c in
  let qv := <["provider" := web.Param c "provider"]> qv in
  next {| web.params := web.params c;
          web.query := qv;
          web.store := web.store c;
          web.body := web.body c |}.

End Middleware.

Arguments withProvider {Profile R}.

End main.

(** ** The course form of the front end: validation *)

Module CourseForm.

Section Validate.

(** JavaScript's numbers stay abstract: what [parseInt(s, 10)] returns,
    [Number.isNaN], the comparison [<] and the test [=== 0] are taken as
    they are. *)
Variable number : Type.
Variable parseInt : string → number.
Variable isNaN : number → bool.
Variable lt : number → number → bool.
Variable is_zero : number → bool.

(** interface ICourseFormStates, without the two rendered elements. *)
Record ICourseFormStates : Type := mkState {
  name : string;
  code : string;
  tag : string;
  year : string;
  provider : string;
  orgid : number;
  clicked : bool
}.

(** [errors.push(msg)] *)
Definition push (errors : list string) (msg : string) : list string :=
  errors ++ [msg].

(** private courseValidate(): string[], with [fullYear] the value of
    [(new Date()).getFullYear()]. *)
Definition courseValidate (state : ICourseFormStates) (fullYear : number)
    : list string :=
  let errors := [] in
  let errors :=
    if String.eqb (name state) "" then push errors "Course name cannot be blank"
    else errors in
  let errors :=
    if String.eqb (code state) "" then push errors "Course tag cannot be blank."
    else errors in
  let errors :=
    if String.eqb (tag state) "" then push errors "Semester cannot be blank."
    else errors in
  let errors :=
    if String.eqb (provider state) "" then push errors "Provider cannot be blank."
    else errors in
  let errors :=
    if is_zero (orgid state) then push errors "Organisation cannot be blank."
    else errors in
  let y := parseInt (year state) in
  let errors :=
    if String.eqb (year state) "" then push errors "Year cannot be blank."
    else if isNaN y then push errors "Year must be a number"
    else if lt y fullYear
         then push errors "Year must be greater or equal to current year"
    else errors in
  errors.

(** private setButtonString(): string, with [editing] for
    [this.props.courseData] being set. *)
Definition setButtonString (state : ICourseFormStates) (editing : bool) : string :=
  if clicked state then (if editing then "Updating" else "Creating")
  else (if editing then "Update" else "Create").

(** The messages of [courseValidate], in the order it checks. *)
Definition messages : list string :=
  ["Course name cannot be blank"; "Course tag cannot be blank.";
   "Semester cannot be blank."; "Provider cannot be blank.";
   "Organisation cannot be blank."; "Year cannot be blank.";
   "Year must be a number"; "Year must be greater or equal to current year"].

End Validate.

Arguments mkState {number}.
Arguments name {number}.
Arguments code {number}.
Arguments tag {number}.
Arguments year {number}.
Arguments provider {number}.
Arguments orgid {number}.
Arguments clicked {number}.
Arguments courseValidate {number}.
Arguments setButtonString {number}.

End CourseForm.

(** ** Users, requests and directories to run the code on *)

Module fixtures.

Import ag web.

(** Three users with no, one and three remote identities; the second is
    pointed to twice. *)
Definition alice : User string := mkUser 1%N "alice" [].
Definition bob : User string :=
  mkUser 2%N "bob" [mkRemoteIdentity "github" 11%N "gho_bob"].
Definition carol : User string :=
  mkUser 3%N "carol"
    [mkRemoteIdentity "github" 12%N "gho_carol";
     mkRemoteIdentity "gitlab" 13%N "glpat_carol";
     mkRemoteIdentity "fake" 14%N "fake_carol"].

Definition heap0 : gmap loc (User string) :=
  <[1%positive := alice]> (<[2%positive := bob]> (<[3%positive := carol]> ∅)).

Definition everyone : option Users :=
  Some (mkUsers [Some 1%positive; Some 2%positive; Some 3%positive; Some 2%positive]).

(** The same users as rows of the database. *)
Definition st0 : memdb.State string :=
  memdb.mkState [alice; bob; carol] [] [].

(** GET /users/<id> and GET /courses[?user=<id>] *)
Definition get_user (id : string) : Context string :=
  mkContext {[ "id" := id ]} ∅ ∅ (inl (errors_New "EOF")).

Definition get_courses (q : gmap string string) : Context string :=
  mkContext ∅ q ∅ (inl (errors_New "EOF")).

(** POST /courses with the body [cr], by a caller whose token reaches the
    directories [dirs] of GitHub. *)
Definition post_course (dirs : list scm.Directory) (cr : NewCourseRequest)
    : Context string :=
  mkContext ∅ ∅ {[ "github" := SCMValue (memdb.lookupSCM dirs) ]} (inr cr).

Definition uis_dat320 : scm.Directory := scm.mkDirectory 42%N "uis-dat320" "".

Definition dat320 : NewCourseRequest :=
  mkNewCourseRequest "DAT320" "DAT320" 2024%N "Fall" "github" 42%N.

(** A provider that resolves directory id 0. *)
Definition root_dir : scm.Directory := scm.mkDirectory 0%N "root" "".

Definition dat320_root : NewCourseRequest :=
  mkNewCourseRequest "DAT320" "DAT320" 2024%N "Fall" "github" 0%N.

(** A provider that answers every lookup with directory 42 (a group that
    was renamed, say), and a request for directory 7. *)
Definition redirectSCM : scm.SCM :=
  {| scm.ListDirectories := inr [uis_dat320];
     scm.CreateDirectory := λ _, inl (errors_New "not supported");
     scm.GetDirectory := λ _, inr uis_dat320 |}.

Definition dat320_moved : NewCourseRequest :=
  mkNewCourseRequest "DAT320" "DAT320" 2024%N "Fall" "github" 7%N.

Definition post_moved : Context string :=
  mkContext ∅ ∅ {[ "github" := SCMValue redirectSCM ]} (inr dat320_moved).

(** A database that refuses every insert and keeps its rows. *)
Definition refusingDB : Database string :=
  {| conn := memdb.State string;
     db_GetUser := memdb.GetUser string;
     db_GetUsers := memdb.GetUsers string;
     db_GetCourses := memdb.GetCourses string;
     db_GetCoursesForUser := memdb.GetCoursesForUser string;
     db_CreateCourse := λ st _, (st, inl (errors_New "database is locked")) |}.

End fixtures.

(** * Properties *)

(** ** The identity-stripping transform *)

Module ag_facts.

Import ag fixtures.

Section WithProfile.

Variable Profile : Type.

(** *** The loop, characterised location by location *)

Lemma void_void (u : User Profile) : void (void u) = void u.
Proof. reflexivity. Qed.

Lemma RemoveRemoteID_live (h : gmap loc (User Profile)) p :
  live h p →
  ∃ l usr, p = Some l ∧ h !! l = Some usr ∧
           RemoveRemoteID p h = Some (<[l := void usr]> h).
Proof.
  intros (l & -> & [usr Hl]). exists l, usr.
  unfold RemoveRemoteID. simpl. rewrite Hl. done.
Qed.

Lemma live_insert (h : gmap loc (User Profile)) l0 u0 p :
  is_Some (h !! l0) → live h p → live (<[l0 := u0]> h) p.
Proof.
  intros H0 (l & -> & Hl). exists l. split; [done|].
  destruct (decide (l0 = l)) as [->|Hne].
  - rewrite lookup_insert_eq. eauto.
  - by rewrite lookup_insert_ne.
Qed.

(** After the loop over [us], exactly the users pointed to from [us] were
    voided; the loop does not panic when every pointer is live. *)
Lemma for_range_RemoveRemoteID us (h : gmap loc (User Profile)) :
  Forall (live h) us →
  ∃ h', for_range RemoveRemoteID us h = Some h' ∧
        ∀ l, h' !! l = if decide (Some l ∈ us) then void <$> h !! l else h !! l.
Proof.
  revert h. induction us as [|p us IH]; intros h Hall.
  - exists h. split; [done|]. intros l.
    destruct (decide (Some l ∈ [])) as [Hin|]; [|done]. by apply elem_of_nil in Hin.
  - apply Forall_cons in Hall as [Hp Hall].
    destruct (RemoveRemoteID_live h p Hp) as (l0 & u0 & -> & Hl0 & Hrm).
    destruct (IH (<[l0 := void u0]> h)) as (h' & Hrun & Hchar).
    { eapply Forall_impl; [exact Hall|]. intros q. apply live_insert. eauto. }
    exists h'. split.
    { cbn [for_range]. rewrite Hrm. exact Hrun. }
    intros l. rewrite Hchar. clear Hchar Hrun IH.
    destruct (decide (l0 = l)) as [->|Hne].
    + rewrite lookup_insert_eq, Hl0.
      rewrite (decide_True (P := Some l ∈ Some l :: us)) by (left).
      simpl. by destruct (decide (Some l ∈ us)).
    + rewrite lookup_insert_ne by done.
      destruct (decide (Some l ∈ us)) as [Hin|Hnin].
      * rewrite decide_True; [done|]. by right.
      * rewrite decide_False; [done|].
        intros Hin. apply elem_of_cons in Hin as [Heq|Hin]; [|done].
        by inversion Heq.
Qed.

(** The same for the nested loop of [Groups]. *)
Lemma for_range_Group_RemoveRemoteIDs gs (h : gmap loc (User Profile)) :
  Forall (live h) (concat (Group_GetUsers <$> gs)) →
  ∃ h', for_range Group_RemoveRemoteIDs gs h = Some h' ∧
        ∀ l, h' !! l = if decide (Some l ∈ concat (Group_GetUsers <$> gs))
                       then void <$> h !! l else h !! l.
Proof.
  revert h. induction gs as [|g gs IH]; intros h Hall.
  - exists h. split; [done|]. intros l. simpl.
    destruct (decide (Some l ∈ [])) as [Hin|]; [|done]. by apply elem_of_nil in Hin.
  - simpl in Hall. apply Forall_app in Hall as [Hg Hall].
    destruct (for_range_RemoveRemoteID _ h Hg) as (h1 & Hrun1 & Hchar1).
    destruct (IH h1) as (h' & Hrun & Hchar).
    { eapply Forall_impl; [exact Hall|]. intros q (l & -> & Hl).
      exists l. split; [done|]. rewrite Hchar1.
      destruct (decide (Some l ∈ Group_GetUsers g)); [|done].
      destruct Hl as [u Hu]. rewrite Hu. simpl. eauto. }
    exists h'. split.
    { cbn [for_range].
      change (Group_RemoveRemoteIDs g h) with (for_range RemoveRemoteID (Group_GetUsers g) h).
      rewrite Hrun1. exact Hrun. }
    intros l. rewrite Hchar, Hchar1. clear Hchar Hchar1 Hrun Hrun1 IH. simpl.
    destruct (decide (Some l ∈ Group_GetUsers g)) as [Hin1|Hnin1];
      destruct (decide (Some l ∈ concat (Group_GetUsers <$> gs))) as [Hin2|Hnin2].
    + rewrite decide_True by (apply elem_of_app; by left).
      destruct (h !! l); done.
    + rewrite decide_True by (apply elem_of_app; by left). done.
    + rewrite decide_True by (apply elem_of_app; by right). done.
    + rewrite decide_False; [done|].
      intros Hin. apply elem_of_app in Hin as [?|?]; done.
Qed.

(** What a location-wise characterisation gives. *)
Lemma voided_stripped (h h' : gmap loc (User Profile)) (ps : list ptr) :
  Forall (live h) ps →
  (∀ l, h' !! l = if decide (Some l ∈ ps) then void <$> h !! l else h !! l) →
  Forall (stripped h') ps.
Proof.
  intros Hall Hchar. apply Forall_forall. intros p Hp.
  rewrite Forall_forall in Hall. destruct (Hall p Hp) as (l & -> & [u Hu]).
  exists l, (void u). split; [done|]. split; [|done].
  rewrite Hchar, decide_True by done. by rewrite Hu.
Qed.

Lemma voided_frame (h h' : gmap loc (User Profile)) (ps : list ptr) :
  (∀ l, h' !! l = if decide (Some l ∈ ps) then void <$> h !! l else h !! l) →
  frame h h'.
Proof.
  intros Hchar. split.
  - apply set_eq. intros l. rewrite !elem_of_dom, Hchar.
    destruct (decide (Some l ∈ ps)); [|done]. by rewrite fmap_is_Some.
  - intros l u Hu. rewrite Hchar, Hu.
    destruct (decide (Some l ∈ ps)); simpl; eexists; (split; [done|]); by split.
Qed.

Lemma voided_elsewhere (h h' : gmap loc (User Profile)) (ps : list ptr) l :
  (∀ l, h' !! l = if decide (Some l ∈ ps) then void <$> h !! l else h !! l) →
  Some l ∉ ps → h' !! l = h !! l.
Proof. intros Hchar Hnin. by rewrite Hchar, decide_False. Qed.


Lemma RemoveRemoteID_at (h : gmap loc (User Profile)) l u :
  h !! l = Some u →
  RemoveRemoteID (Some l) h
  = Some (<[l := {| ID := ID u; profile := profile u; RemoteIdentities := [] |}]> h).
Proof. intros Hl. unfold RemoveRemoteID. simpl. by rewrite Hl. Qed.

(** C8.  After [RemoveRemoteID] on a user, and after [RemoveRemoteIDs] on a
    [Users], a [Group] or a [Groups] value, every user the value contains
    has an empty [RemoteIdentities] slice, however many identities it held
    before.  The transform runs to completion (no nil dereference) whenever
    the user pointers it is handed can be dereferenced. *)
Theorem RemoveRemoteIDs_strips_every_user :
  (∀ (h : gmap loc (User Profile)) (u : ptr),
     live h u →
     ∃ h', RemoveRemoteID u h = Some h' ∧ stripped h' u) ∧
  (∀ (h : gmap loc (User Profile)) (us : option Users),
     Forall (live h) (Users_GetUsers us) →
     ∃ h', Users_RemoveRemoteIDs us h = Some h' ∧
           Forall (stripped h') (Users_GetUsers us)) ∧
  (∀ (h : gmap loc (User Profile)) (g : option Group),
     Forall (live h) (Group_GetUsers g) →
     ∃ h', Group_RemoveRemoteIDs g h = Some h' ∧
           Forall (stripped h') (Group_GetUsers g)) ∧
  (∀ (h : gmap loc (User Profile)) (gs : option Groups),
     Forall (live h) (Groups_members gs) →
     ∃ h', Groups_RemoveRemoteIDs gs h = Some h' ∧
           Forall (stripped h') (Groups_members gs)).
Proof.
  repeat split.
  - intros h u Hu.
    destruct (RemoveRemoteID_live h u Hu) as (l & usr & -> & Hl & Hrun).
    eexists. split; [exact Hrun|].
    exists l, (void usr). by rewrite lookup_insert_eq.
  - intros h us Hall.
    destruct (for_range_RemoveRemoteID _ h Hall) as (h' & Hrun & Hchar).
    exists h'. split; [exact Hrun|]. by eapply voided_stripped.
  - intros h g Hall.
    destruct (for_range_RemoveRemoteID _ h Hall) as (h' & Hrun & Hchar).
    exists h'. split; [exact Hrun|]. by eapply voided_stripped.
  - intros h gs Hall.
    destruct (for_range_Group_RemoveRemoteIDs _ h Hall) as (h' & Hrun & Hchar).
    exists h'. split; [exact Hrun|]. by eapply voided_stripped.
Qed.

(** C10.  [RemoveRemoteID] writes the user back with the same [ID] and the
    same remaining fields and an empty [RemoteIdentities] slice, and leaves
    the rest of the heap alone; the three [RemoveRemoteIDs] keep every user
    of the heap in place with all fields but [RemoteIdentities] unchanged,
    and do not touch a user that the collection does not point to. *)
Theorem RemoveRemoteIDs_change_only_identities :
  (∀ (h : gmap loc (User Profile)) l u,
     h !! l = Some u →
     RemoveRemoteID (Some l) h
     = Some (<[l := {| ID := ID u; profile := profile u;
                       RemoteIdentities := [] |}]> h)) ∧
  (∀ (h : gmap loc (User Profile)) (us : option Users),
     Forall (live h) (Users_GetUsers us) →
     ∃ h', Users_RemoveRemoteIDs us h = Some h' ∧ frame h h' ∧
           ∀ l, Some l ∉ Users_GetUsers us → h' !! l = h !! l) ∧
  (∀ (h : gmap loc (User Profile)) (g : option Group),
     Forall (live h) (Group_GetUsers g) →
     ∃ h', Group_RemoveRemoteIDs g h = Some h' ∧ frame h h' ∧
           ∀ l, Some l ∉ Group_GetUsers g → h' !! l = h !! l) ∧
  (∀ (h : gmap loc (User Profile)) (gs : option Groups),
     Forall (live h) (Groups_members gs) →
     ∃ h', Groups_RemoveRemoteIDs gs h = Some h' ∧ frame h h' ∧
           ∀ l, Some l ∉ Groups_members gs → h' !! l = h !! l).
Proof.
  split; [exact RemoveRemoteID_at|]. repeat split.
  - intros h us Hall.
    destruct (for_range_RemoveRemoteID _ h Hall) as (h' & Hrun & Hchar).
    exists h'. split; [exact Hrun|]. split; [by eapply voided_frame|].
    intros l. by apply voided_elsewhere.
  - intros h g Hall.
    destruct (for_range_RemoveRemoteID _ h Hall) as (h' & Hrun & Hchar).
    exists h'. split; [exact Hrun|]. split; [by eapply voided_frame|].
    intros l. by apply voided_elsewhere.
  - intros h gs Hall.
    destruct (for_range_Group_RemoveRemoteIDs _ h Hall) as (h' & Hrun & Hchar).
    exists h'. split; [exact Hrun|]. split; [by eapply voided_frame|].
    intros l. by apply voided_elsewhere.
Qed.

End WithProfile.

Lemma everyone_live : Forall (live heap0) (Users_GetUsers everyone).
Proof. repeat constructor; eexists; (split; [reflexivity|]); by eexists. Defined.

Lemma RemoveRemoteIDs_strips_every_user_witness :
  ∃ h', Users_RemoveRemoteIDs everyone heap0 = Some h' ∧
        Forall (stripped h') (Users_GetUsers everyone).
Proof.
  exact (proj1 (proj2 (RemoveRemoteIDs_strips_every_user string))
           heap0 everyone everyone_live).
Defined.

Lemma RemoveRemoteIDs_change_only_identities_witness :
  ∃ h', Users_RemoveRemoteIDs (Some (mkUsers [Some 2%positive])) heap0 = Some h' ∧
        frame heap0 h' ∧
        ∀ l, Some l ∉ [Some 2%positive] → h' !! l = heap0 !! l.
Proof.
  apply (proj1 (proj2 (RemoveRemoteIDs_change_only_identities string))
           heap0 (Some (mkUsers [Some 2%positive]))).
  repeat constructor. eexists. split; [reflexivity|]. by eexists.
Defined.

(** The run itself: bob and carol lose their identities, their other
    fields stay. *)
Example Users_RemoveRemoteIDs_run :
  (λ h, (h !! 1%positive, h !! 2%positive, h !! 3%positive))
    <$> Users_RemoveRemoteIDs everyone heap0
  = Some (Some (mkUser 1%N "alice" []), Some (mkUser 2%N "bob" []),
          Some (mkUser 3%N "carol" [])).
Proof. reflexivity. Qed.

(** A nil user pointer makes the loop panic. *)
Example Users_RemoveRemoteIDs_nil :
  Users_RemoveRemoteIDs (Some (mkUsers [Some 1%positive; None])) heap0 = None.
Proof. reflexivity. Qed.

End ag_facts.

(** ** [strconv.ParseUint] on decimal numerals *)

Module strconv_facts.

Import strconv.

Lemma digit_digit_char d : (d < 10)%N → digit (digit_char d) = Some d.
Proof.
  intros Hd.
  assert (Hc : d ∈ [0; 1; 2; 3; 4; 5; 6; 7; 8; 9]%N).
  { destruct d as [|p]; [left|].
    do 9 (destruct p as [p|p|]; try (exfalso; lia); try set_solver). }
  repeat (apply elem_of_cons in Hc as [->|Hc]; [reflexivity|]).
  by apply elem_of_nil in Hc.
Qed.

(** One more digit read: the value so far times ten, plus the digit. *)
Lemma ParseUint_loop_digit d rest n :
  (d < 10)%N → (n * 10 + d < 2 ^ 64)%N →
  ParseUint_loop (String (digit_char d) rest) n = ParseUint_loop rest (n * 10 + d).
Proof.
  intros Hd Hn. cbn [ParseUint_loop]. rewrite digit_digit_char by done.
  assert (H64 : (2 ^ 64 = 18446744073709551616)%N) by reflexivity.
  assert (Hcut : (maxUint64 / 10 + 1 = 1844674407370955162)%N) by reflexivity.
  assert (Hmax : (maxUint64 = 18446744073709551615)%N) by reflexivity.
  rewrite Hcut, Hmax. unfold wrap64. rewrite H64 in *.
  rewrite (N.mod_small (n * 10)) by lia.
  rewrite (N.mod_small (n * 10 + d)) by lia.
  destruct (N.leb_spec 1844674407370955162 n); [lia|].
  destruct (N.ltb_spec (n * 10 + d) (n * 10)); [lia|].
  destruct (N.ltb_spec 18446744073709551615 (n * 10 + d)); [lia|].
  reflexivity.
Qed.

Lemma FormatUint_loop_parse fuel n acc :
  (n < 10 ^ N.of_nat fuel)%N → (n < 2 ^ 64)%N →
  ParseUint_loop (FormatUint_loop fuel n acc) 0 = ParseUint_loop acc n.
Proof.
  revert n acc. induction fuel as [|fuel IH]; intros n acc Hfuel Hn.
  { simpl in Hfuel. assert (n = 0%N) as -> by lia. reflexivity. }
  cbn [FormatUint_loop].
  assert (Hmod : (n mod 10 < 10)%N) by (apply N.mod_lt; lia).
  assert (Hdiv : (n = n / 10 * 10 + n mod 10)%N).
  { rewrite (N.div_mod n 10) at 1 by lia. lia. }
  destruct (N.ltb_spec n 10) as [Hsmall|Hbig].
  - rewrite ParseUint_loop_digit by (rewrite ?N.mod_small; lia).
    by rewrite N.mod_small.
  - rewrite IH.
    + rewrite ParseUint_loop_digit by lia. by rewrite <- Hdiv.
    + rewrite Nat2N.inj_succ, N.pow_succ_r' in Hfuel.
      apply N.Div0.div_lt_upper_bound. lia.
    + assert (n / 10 ≤ n)%N by (apply N.Div0.div_le_upper_bound; lia). lia.
Qed.

Lemma FormatUint_loop_nonempty fuel n acc :
  acc ≠ EmptyString → FormatUint_loop fuel n acc ≠ EmptyString.
Proof.
  revert n acc. induction fuel as [|fuel IH]; intros n acc Hacc; [done|].
  cbn [FormatUint_loop]. destruct (n <? 10)%N; [done|]. by apply IH.
Qed.

Lemma FormatUint_loop_S_nonempty fuel n acc :
  FormatUint_loop (S fuel) n acc ≠ EmptyString.
Proof.
  cbn [FormatUint_loop]. destruct (n <? 10)%N; [done|].
  by apply FormatUint_loop_nonempty.
Qed.

Lemma ParseUint_nonempty s :
  s ≠ EmptyString →
  ParseUint s = match ParseUint_loop s 0 with
                | inl e => inl (NumError "ParseUint" s e)
                | inr n => inr n
                end.
Proof. by destruct s. Qed.

(** Every [uint64], written in decimal, is read back by [ParseUint]. *)
Lemma ParseUint_FormatUint n :
  (n < 2 ^ 64)%N → ParseUint (FormatUint n) = inr n.
Proof.
  intros Hn. unfold FormatUint.
  rewrite ParseUint_nonempty by apply FormatUint_loop_S_nonempty.
  rewrite FormatUint_loop_parse; [done| |done].
  assert ((2 ^ 64 < 10 ^ N.of_nat 20)%N) by reflexivity. lia.
Qed.

Example ParseUint_42 : ParseUint "42" = inr 42%N.
Proof. reflexivity. Qed.

Example ParseUint_leading_zeros : ParseUint "007" = inr 7%N.
Proof. reflexivity. Qed.

Example ParseUint_empty : ParseUint "" = inl (NumError "ParseUint" "" ErrSyntax).
Proof. reflexivity. Qed.

Example ParseUint_sign : ParseUint "-1" = inl (NumError "ParseUint" "-1" ErrSyntax).
Proof. reflexivity. Qed.

Example ParseUint_max : ParseUint "18446744073709551615" = inr maxUint64.
Proof. reflexivity. Qed.

Example ParseUint_overflow :
  ParseUint "18446744073709551616"
  = inl (NumError "ParseUint" "18446744073709551616" ErrRange).
Proof. reflexivity. Qed.

Example FormatUint_2024 : FormatUint 2024%N = "2024".
Proof. reflexivity. Qed.

End strconv_facts.

(** ** The SCM client factory *)

Module scm_facts.

Import scm.

(** C5, as the code has it.  [NewSCMClient] knows two provider names: for
    "github" and for "gitlab" it returns that adapter's client for the token
    and a nil error; for every other name, "fake" among them, it returns a
    nil client and the error "invalid provider: <name>". *)
Theorem NewSCMClient_by_provider_name (github gitlab : string → SCM)
    (provider token : string) :
  NewSCMClient github gitlab "github" token = (Some (github token), None) ∧
  NewSCMClient github gitlab "gitlab" token = (Some (gitlab token), None) ∧
  (provider ∉ ["github"; "gitlab"] →
   NewSCMClient github gitlab provider token
   = (None, Some (errors_New ("invalid provider: " +:+ provider)))).
Proof.
  split; [reflexivity|]. split; [reflexivity|].
  intros Hnot. unfold NewSCMClient.
  destruct (String.eqb_spec provider "github") as [->|_].
  { exfalso. apply Hnot. left. }
  destruct (String.eqb_spec provider "gitlab") as [->|_].
  { exfalso. apply Hnot. right. left. }
  reflexivity.
Qed.

(** The name "fake" gets no client. *)
Lemma NewSCMClient_fake :
  NewSCMClient (λ _, memdb.lookupSCM []) (λ _, memdb.lookupSCM []) "fake" "token"
  = (None, Some (errors_New "invalid provider: fake")) ∧
  ¬ ∃ s, NewSCMClient (λ _, memdb.lookupSCM []) (λ _, memdb.lookupSCM [])
           "fake" "token" = (Some s, None).
Proof. split; [reflexivity|]. intros [s Hs]. discriminate Hs. Qed.

End scm_facts.

(** ** The handlers *)

Module web_facts.

Import web fixtures.

Section Handlers.

Variable Profile : Type.
Variable D : Database Profile.

Implicit Types (db : conn D) (c : Context Profile) (cr : NewCourseRequest).

(** *** [valid] *)

Lemma valid_Some cr :
  valid (Some cr) = true ↔
  Name cr ≠ "" ∧ Code cr ≠ "" ∧
  (Provider cr = "github" ∨ Provider cr = "gitlab") ∧
  DirectoryID cr ≠ 0%N ∧ Year cr ≠ 0%N ∧ Tag cr ≠ "".
Proof.
  unfold valid.
  rewrite !andb_true_iff, orb_true_iff, !negb_true_iff.
  rewrite !String.eqb_neq, !String.eqb_eq, !N.eqb_neq. tauto.
Qed.

Lemma missing_field_invalid cr : missing_field cr → valid (Some cr) = false.
Proof.
  intros Hm. apply not_true_is_false. rewrite valid_Some.
  intros (HN & HC & HP & HD & HY & HT).
  destruct Hm as [?|[?|[?|[?|[?|Hp]]]]]; try done.
  apply Hp. destruct HP as [->| ->]; [left|right; left].
Qed.

(** *** [GetUser] and [GetUsers] *)

(** Whatever user the database returns is marshalled as it is. *)
Lemma GetUser_found db c id u :
  strconv.ParseUint (Param c "id") = inr id → id ≠ 0%N →
  db_GetUser D db id = inr u →
  GetUser D db c = Responded StatusFound (JSON_User u).
Proof.
  intros Hp Hid Hu. unfold GetUser. rewrite Hp.
  apply N.eqb_neq in Hid. by rewrite Hid, Hu.
Qed.

Lemma GetUsers_found db c us :
  db_GetUsers D db = inr us →
  GetUsers D db c = Responded StatusFound (JSON_Users us).
Proof. intros Hu. unfold GetUsers. by rewrite Hu. Qed.

(** C7.  For a positive user id that the database reports as not found,
    [GetUser] answers 404 with no content. *)
Theorem GetUser_not_found db c id :
  strconv.ParseUint (Param c "id") = inr id →
  (0 < id)%N →
  db_GetUser D db id = inl ErrRecordNotFound →
  GetUser D db c = Responded StatusNotFound NoContent.
Proof.
  intros Hp Hid Hu. unfold GetUser. rewrite Hp.
  assert (Hz : (id =? 0)%N = false) by (apply N.eqb_neq; lia).
  by rewrite Hz, Hu.
Qed.

(** The same for a request whose path carries the decimal numeral of the
    id, as a client writes it. *)
Lemma GetUser_not_found_numeral db c id :
  (0 < id < 2 ^ 64)%N →
  params c !! "id" = Some (strconv.FormatUint id) →
  db_GetUser D db id = inl ErrRecordNotFound →
  GetUser D db c = Responded StatusNotFound NoContent.
Proof.
  intros [Hpos Hlt] Hparam Hu. unfold GetUser, Param. rewrite Hparam. simpl.
  rewrite strconv_facts.ParseUint_FormatUint by done.
  assert (Hz : (id =? 0)%N = false) by (apply N.eqb_neq; lia).
  by rewrite Hz, Hu.
Qed.

(** *** [ListCourses] *)

(** C6, the case the code misses.  Without a [user] query parameter
    [QueryParam] gives the empty string, [ParseUint] refuses it, and the
    handler returns that error: no course is listed. *)
Theorem ListCourses_without_user db c :
  query c !! "user" = None →
  ListCourses D db c = Failed (NumError "ParseUint" "" ErrSyntax).
Proof. intros Hq. unfold ListCourses, QueryParam. by rewrite Hq. Qed.

Lemma ListCourses_all db c :
  strconv.ParseUint (QueryParam c "user") = inr 0%N →
  ListCourses D db c
  = match db_GetCourses D db with
    | inl err => Failed err
    | inr cs => Responded StatusOK (JSON_Courses cs)
    end.
Proof. intros Hp. unfold ListCourses. by rewrite Hp. Qed.

Lemma ListCourses_for_user db c id :
  strconv.ParseUint (QueryParam c "user") = inr id → (0 < id)%N →
  ListCourses D db c
  = match db_GetCoursesForUser D db id with
    | inl err => Failed err
    | inr cs => Responded StatusOK (JSON_Courses cs)
    end.
Proof.
  intros Hp Hid. unfold ListCourses. rewrite Hp.
  apply N.ltb_lt in Hid. by rewrite Hid.
Qed.

(** *** [NewCourse] *)

(** The handler on a request that reaches the directory lookup. *)
Lemma NewCourse_verified db c cr d :
  directory_verified c cr d →
  NewCourse D db c
  = let calls := [Call_GetDirectory (Provider cr) (DirectoryID cr);
                  Call_CreateCourse (course_of cr d)] in
    match db_CreateCourse D db (course_of cr d) with
    | (db', inl err) => (db', calls, Failed err)
    | (db', inr id) =>
        (db', calls,
         Responded StatusCreated
           (JSON_Course
              {| models.ID := id;
                 models.Name := Name cr;
                 models.Code := Code cr;
                 models.Year := Year cr;
                 models.Tag := Tag cr;
                 models.Provider := Provider cr;
                 models.DirectoryID := scm.ID d |}))
    end.
Proof.
  intros (Hb & Hv & s & Hs & Hd). unfold NewCourse.
  rewrite Hb, Hv, Hs, Hd. reflexivity.
Qed.

(** The handler on every other request: the database is not called. *)
Lemma NewCourse_not_verified db c :
  (∀ cr d, ¬ directory_verified c cr d) →
  ∃ calls out,
    NewCourse D db c = (db, calls, out) ∧
    (calls = [] ∨ ∃ p i, calls = [Call_GetDirectory p i]) ∧
    (out = Panicked ∨ ∃ err, out = Failed err).
Proof.
  intros Hnot. unfold NewCourse.
  destruct (Bind c) as [err|cr] eqn:Hb.
  { exists [], (Failed err). split; [done|]. split; [by left|]. right. eauto. }
  destruct (valid (Some cr)) eqn:Hv; simpl.
  2:{ eexists [], _. split; [done|]. split; [by left|]. right. eauto. }
  destruct (Get c (Provider cr)) as [[u|s]|] eqn:Hs.
  - eexists [], _. split; [done|]. split; [by left|]. by left.
  - destruct (scm.GetDirectory s (DirectoryID cr)) as [err|d] eqn:Hd.
    + eexists _, _. split; [done|]. split; [right; eauto|]. right. eauto.
    + exfalso. apply (Hnot cr d). split; [done|]. split; [done|]. eauto.
  - eexists [], _. split; [done|]. split; [by left|]. right. eauto.
Qed.

Lemma directory_verified_or_not c :
  (∃ cr d, directory_verified c cr d) ∨ (∀ cr d, ¬ directory_verified c cr d).
Proof.
  unfold directory_verified.
  destruct (Bind c) as [err|cr] eqn:Hb.
  { right. intros cr d (Hb' & _). discriminate. }
  destruct (valid (Some cr)) eqn:Hv.
  2:{ right. intros cr' d (Hb' & Hv' & _). congruence. }
  destruct (Get c (Provider cr)) as [[u|s]|] eqn:Hs.
  - right. intros cr' d (Hb' & _ & s' & Hs' & _). congruence.
  - destruct (scm.GetDirectory s (DirectoryID cr)) as [err|d] eqn:Hd.
    + right. intros cr' d (Hb' & _ & s' & Hs' & Hd').
      assert (cr' = cr) as -> by congruence.
      assert (s' = s) as -> by congruence. congruence.
    + left. exists cr, d. eauto.
  - right. intros cr' d (Hb' & _ & s' & Hs' & _). congruence.
Qed.

(** C2.  In every run of [NewCourse], a call of [db.CreateCourse] comes
    second, right after a call of [GetDirectory] for the requested directory
    id on the caller's client that returned a directory; and when the
    request does not get past the directory lookup (binding, validation,
    the client lookup or [GetDirectory] itself fails), the database is left
    as it was, [db.CreateCourse] is not called, and the handler does not
    answer with a course. *)
Theorem NewCourse_creates_after_directory db c :
  let '(db', calls, out) := NewCourse D db c in
  (∀ course, Call_CreateCourse course ∈ calls →
     ∃ cr d, directory_verified c cr d ∧
       calls = [Call_GetDirectory (Provider cr) (DirectoryID cr);
                Call_CreateCourse course]) ∧
  ((∀ cr d, ¬ directory_verified c cr d) →
     db' = db ∧ (∀ course, Call_CreateCourse course ∉ calls) ∧
     (out = Panicked ∨ ∃ err, out = Failed err)).
Proof.
  destruct (directory_verified_or_not c) as [(cr & d & Hv)|Hnot].
  - rewrite (NewCourse_verified db c cr d Hv). cbv zeta.
    destruct (db_CreateCourse D db (course_of cr d)) as [db' [err|id]].
    + split.
      * intros course Hin. exists cr, d. split; [done|].
        apply elem_of_cons in Hin as [Hin|Hin]; [discriminate|].
        apply list_elem_of_singleton in Hin. by inversion Hin.
      * intros Hnot. destruct (Hnot cr d Hv).
    + split.
      * intros course Hin. exists cr, d. split; [done|].
        apply elem_of_cons in Hin as [Hin|Hin]; [discriminate|].
        apply list_elem_of_singleton in Hin. by inversion Hin.
      * intros Hnot. destruct (Hnot cr d Hv).
  - destruct (NewCourse_not_verified db c Hnot) as (calls & out & -> & Hcalls & Hout).
    split.
    + intros course Hin. exfalso.
      destruct Hcalls as [->|(p & i & ->)].
      * by apply elem_of_nil in Hin.
      * apply list_elem_of_singleton in Hin. discriminate.
    + intros _. split; [done|]. split; [|done].
      intros course Hin.
      destruct Hcalls as [->|(p & i & ->)].
      * by apply elem_of_nil in Hin.
      * apply list_elem_of_singleton in Hin. discriminate.
Qed.

(** C4.  A request with a required field missing (empty name, code or tag,
    zero year, zero directory id, provider neither "github" nor "gitlab"),
    or whose directory cannot be reached with the caller's token, is
    rejected: the handler returns an error, which is a 400 unless it is the
    error of the failed directory lookup; the database is left as it was and
    [db.CreateCourse] is not called. *)
Theorem NewCourse_rejects db c cr :
  Bind c = inr cr →
  missing_field cr ∨ unreachable c cr →
  ∃ calls err,
    NewCourse D db c = (db, calls, Failed err) ∧
    (∀ course, Call_CreateCourse course ∉ calls) ∧
    ((∃ msg, err = NewHTTPError StatusBadRequest msg) ∨
     (∃ s, Get c (Provider cr) = Some (SCMValue s) ∧
           scm.GetDirectory s (DirectoryID cr) = inl err)).
Proof.
  intros Hb Hbad. unfold NewCourse. rewrite Hb.
  destruct (valid (Some cr)) eqn:Hv; simpl.
  2:{ eexists [], _. split; [done|]. split; [|left; eauto].
      intros course Hin. by apply elem_of_nil in Hin. }
  destruct Hbad as [Hm|Hu].
  { apply missing_field_invalid in Hm. congruence. }
  destruct Hu as [Hs|(s & err & Hs & Hd)]; rewrite Hs.
  - eexists [], _. split; [done|]. split; [|left; eauto].
    intros course Hin. by apply elem_of_nil in Hin.
  - rewrite Hd. eexists _, err. split; [done|]. split; [|right; eauto].
    intros course Hin. apply list_elem_of_singleton in Hin. discriminate.
Qed.

(** C3, as the code has it.  A request with non-empty name, code and tag, a
    year not before the current one, provider "github" or "gitlab" and a
    directory id that is not zero, for which the caller's client returns
    the directory of that id and the insert succeeds, is answered 201 with
    the course: the requested name, code, year, tag, provider and directory
    id, and the row id the database gave it. *)
Theorem NewCourse_created db c cr s d db' id (currentYear : uint) :
  Bind c = inr cr →
  Name cr ≠ "" → Code cr ≠ "" → Tag cr ≠ "" →
  (0 < currentYear)%N → (currentYear ≤ Year cr)%N →
  Provider cr = "github" ∨ Provider cr = "gitlab" →
  DirectoryID cr ≠ 0%N →
  Get c (Provider cr) = Some (SCMValue s) →
  scm.GetDirectory s (DirectoryID cr) = inr d →
  scm.ID d = DirectoryID cr →
  db_CreateCourse D db (course_of cr d) = (db', inr id) →
  ∃ calls,
    NewCourse D db c
    = (db', calls,
       Responded StatusCreated
         (JSON_Course
            {| models.ID := id;
               models.Name := Name cr;
               models.Code := Code cr;
               models.Year := Year cr;
               models.Tag := Tag cr;
               models.Provider := Provider cr;
               models.DirectoryID := DirectoryID cr |})).
Proof.
  intros Hb HN HC HT Hnow Hyear HP HD Hs Hd Hid Hins.
  assert (Hv : directory_verified c cr d).
  { split; [done|]. split; [|eauto].
    apply valid_Some. repeat split; try done. lia. }
  rewrite (NewCourse_verified db c cr d Hv). cbv zeta.
  rewrite Hins, Hid. eauto.
Qed.

End Handlers.

(** *** The handlers run on the in-memory database *)

(** C1 at a user who holds a token.  [GetUser] and [GetUsers] marshal the
    users as the database returns them: the response to GET /users/2 carries
    bob's access token, the response to GET /users those of bob and carol. *)
Theorem GetUser_GetUsers_marshal_tokens :
  GetUser (memdb.DB string) st0 (get_user "2")
  = Responded StatusFound (JSON_User fixtures.bob) ∧
  Outcome_tokens (GetUser (memdb.DB string) st0 (get_user "2")) = ["gho_bob"] ∧
  Outcome_tokens (GetUsers (memdb.DB string) st0 (get_courses ∅))
  = ["gho_bob"; "gho_carol"; "glpat_carol"; "fake_carol"].
Proof. split; [|split]; vm_compute; reflexivity. Qed.

(** The in-memory database reports exactly the ids no row has. *)
Lemma memdb_GetUser_not_found (st : memdb.State string) id :
  memdb.GetUser string st id = inl ErrRecordNotFound ↔
  ∀ u, u ∈ memdb.users st → ag.ID u ≠ id.
Proof.
  unfold memdb.GetUser. split.
  - destruct (List.find _ _) as [u|] eqn:Hf; [discriminate|]. intros _ u Hin Heq.
    apply list_elem_of_In in Hin.
    pose proof (List.find_none _ _ Hf u Hin) as Hnone. simpl in Hnone.
    apply N.eqb_neq in Hnone. done.
  - intros Hall. destruct (List.find _ _) as [u|] eqn:Hf; [|done].
    apply List.find_some in Hf as [Hin Heq]. apply N.eqb_eq in Heq.
    apply list_elem_of_In in Hin. destruct (Hall u Hin Heq).
Qed.

Lemma GetUser_not_found_witness :
  GetUser (memdb.DB string) st0 (get_user "42") = Responded StatusNotFound NoContent.
Proof.
  apply (GetUser_not_found string (memdb.DB string) st0 (get_user "42") 42%N).
  - vm_compute. reflexivity.
  - reflexivity.
  - vm_compute. reflexivity.
Defined.

Lemma ListCourses_without_user_witness :
  ListCourses (memdb.DB string) st0 (get_courses ∅)
  = Failed (NumError "ParseUint" "" ErrSyntax).
Proof.
  apply (ListCourses_without_user string (memdb.DB string) st0 (get_courses ∅)).
  reflexivity.
Defined.

(** The example of the specification: directory 42 exists, the course is
    created with that directory id and gets row id 1. *)
Lemma NewCourse_created_witness :
  ∃ calls,
    NewCourse (memdb.DB string) st0 (post_course [uis_dat320] dat320)
    = (memdb.mkState (memdb.users st0)
         [models.mkCourse 1%N "DAT320" "DAT320" 2024%N "Fall" "github" 42%N] [],
       calls,
       Responded StatusCreated
         (JSON_Course (models.mkCourse 1%N "DAT320" "DAT320" 2024%N "Fall" "github" 42%N))).
Proof.
  apply (NewCourse_created string (memdb.DB string) st0
           (post_course [uis_dat320] dat320) dat320
           (memdb.lookupSCM [uis_dat320]) uis_dat320 _ 1%N 2024%N).
  - reflexivity.
  - discriminate.
  - discriminate.
  - discriminate.
  - reflexivity.
  - discriminate.
  - left. reflexivity.
  - discriminate.
  - vm_compute. reflexivity.
  - reflexivity.
  - reflexivity.
  - reflexivity.
Defined.

(** C3 as stated fails at directory id 0: a provider may resolve it, the
    insert would succeed, and the request is still refused as invalid. *)
Lemma NewCourse_directory_zero :
  (Name dat320_root ≠ "" ∧ Code dat320_root ≠ "" ∧ Tag dat320_root ≠ "" ∧
   (2024 ≤ Year dat320_root)%N ∧ Provider dat320_root = "github" ∧
   Get (post_course [root_dir] dat320_root) (Provider dat320_root)
   = Some (SCMValue (memdb.lookupSCM [root_dir])) ∧
   scm.GetDirectory (memdb.lookupSCM [root_dir]) (DirectoryID dat320_root)
   = inr root_dir ∧
   scm.ID root_dir = DirectoryID dat320_root ∧
   (memdb.CreateCourse string st0 (course_of dat320_root root_dir)).2 = inr 1%N) ∧
  NewCourse (memdb.DB string) st0 (post_course [root_dir] dat320_root)
  = (st0, [], Failed (NewHTTPError StatusBadRequest "invalid payload")).
Proof.
  split; [|vm_compute; reflexivity].
  repeat split; try discriminate; vm_compute; reflexivity.
Qed.

(** The course carries the id of the directory the client returned, also
    when that is not the id that was asked for. *)
Example NewCourse_other_directory :
  (NewCourse (memdb.DB string) st0 post_moved).2
  = Responded StatusCreated
      (JSON_Course (models.mkCourse 1%N "DAT320" "DAT320" 2024%N "Fall" "github" 42%N)).
Proof. vm_compute. reflexivity. Qed.

Lemma NewCourse_creates_after_directory_witness :
  let '(db', calls, out) :=
    NewCourse (memdb.DB string) st0 (post_course [uis_dat320] dat320) in
  (∀ course, Call_CreateCourse course ∈ calls →
     ∃ cr d, directory_verified (post_course [uis_dat320] dat320) cr d ∧
       calls = [Call_GetDirectory (Provider cr) (DirectoryID cr);
                Call_CreateCourse course]) ∧
  ((∀ cr d, ¬ directory_verified (post_course [uis_dat320] dat320) cr d) →
     db' = st0 ∧ (∀ course, Call_CreateCourse course ∉ calls) ∧
     (out = Panicked ∨ ∃ err, out = Failed err)).
Proof.
  exact (NewCourse_creates_after_directory string (memdb.DB string) st0
           (post_course [uis_dat320] dat320)).
Defined.

Example NewCourse_calls :
  (NewCourse (memdb.DB string) st0 (post_course [uis_dat320] dat320)).1.2
  = [Call_GetDirectory "github" 42%N;
     Call_CreateCourse (models.mkCourse 0%N "DAT320" "DAT320" 2024%N "Fall" "github" 42%N)].
Proof. vm_compute. reflexivity. Qed.

(** A request without a name, and a request for a directory the token does
    not reach. *)
Lemma NewCourse_rejects_witness :
  ∃ calls err,
    NewCourse (memdb.DB string) st0
      (post_course [] (mkNewCourseRequest "DAT320" "DAT320" 2024%N "Fall" "github" 42%N))
    = (st0, calls, Failed err) ∧
    (∀ course, Call_CreateCourse course ∉ calls) ∧
    ((∃ msg, err = NewHTTPError StatusBadRequest msg) ∨
     (∃ s, Get (post_course [] dat320) "github" = Some (SCMValue s) ∧
           scm.GetDirectory s 42%N = inl err)).
Proof.
  apply (NewCourse_rejects string (memdb.DB string) st0 (post_course [] dat320) dat320).
  - reflexivity.
  - right. right. exists (memdb.lookupSCM []), (errors_New "directory not found").
    split; [vm_compute|]; reflexivity.
Defined.

Example NewCourse_rejects_no_name :
  NewCourse (memdb.DB string) st0
    (post_course [uis_dat320] (mkNewCourseRequest "" "DAT320" 2024%N "Fall" "github" 42%N))
  = (st0, [], Failed (NewHTTPError StatusBadRequest "invalid payload")).
Proof. vm_compute. reflexivity. Qed.

Example NewCourse_rejects_unknown_directory :
  NewCourse (memdb.DB string) st0 (post_course [] dat320)
  = (st0, [Call_GetDirectory "github" 42%N], Failed (errors_New "directory not found")).
Proof. vm_compute. reflexivity. Qed.

Example GetSelf_redirects :
  GetSelf (mkContext ∅ ∅ {[ "user" := UserValue bob ]} (inl (errors_New "EOF")))
  = Redirected StatusFound "/api/v1/users/2".
Proof. vm_compute. reflexivity. Qed.

Example ListCourses_user_0 :
  ListCourses (memdb.DB string) st0 (get_courses {[ "user" := "0" ]})
  = Responded StatusOK (JSON_Courses []).
Proof. vm_compute. reflexivity. Qed.

End web_facts.

(** ** More on the identity-stripping transform *)

Module ag_compose.

Import ag fixtures.

Section WithProfile.

Variable Profile : Type.

Implicit Types (h : gmap loc (User Profile)) (us : list ptr).

(** A loop over a concatenation is the two loops in sequence. *)
Lemma for_range_app {A : Type} (body : A → gmap loc (User Profile) → option _)
    (xs ys : list A) h :
  for_range body (xs ++ ys) h = h' ← for_range body xs h; for_range body ys h'.
Proof.
  revert h. induction xs as [|x xs IH]; intros h; [done|].
  cbn [for_range app]. destruct (body x h) as [h1|]; [|done]. apply IH.
Qed.

Lemma live_insert_inv h l0 u0 p :
  is_Some (h !! l0) → live (<[l0 := u0]> h) p → live h p.
Proof.
  intros H0 (l & -> & Hl). exists l. split; [done|].
  destruct (decide (l0 = l)) as [->|Hne]; [done|].
  by rewrite lookup_insert_ne in Hl.
Qed.

(** A loop that finishes was handed live pointers only. *)
Lemma for_range_RemoveRemoteID_Some us h h' :
  for_range RemoveRemoteID us h = Some h' → Forall (live h) us.
Proof.
  revert h. induction us as [|p us IH]; intros h Hrun; [constructor|].
  cbn [for_range] in Hrun.
  destruct (RemoveRemoteID p h) as [h1|] eqn:Hp; [|discriminate].
  unfold RemoveRemoteID in Hp.
  destruct p as [l|]; [|discriminate]. simpl in Hp.
  destruct (h !! l) as [usr|] eqn:Hl; [|discriminate].
  simpl in Hp. injection Hp as <-.
  constructor.
  - exists l. split; [done|]. rewrite Hl. eauto.
  - eapply Forall_impl; [exact (IH _ Hrun)|].
    intros q. apply live_insert_inv. rewrite Hl. eauto.
Qed.

Lemma Groups_RemoveRemoteIDs_members (gs : option Groups) h :
  Groups_RemoveRemoteIDs gs h = for_range RemoveRemoteID (Groups_members gs) h.
Proof.
  unfold Groups_RemoveRemoteIDs, Groups_members.
  generalize (Groups_GetGroups gs). clear gs. intros gs.
  revert h. induction gs as [|g gs IH]; intros h; [done|].
  cbn [for_range fmap list_fmap concat]. rewrite for_range_app.
  change (Group_RemoveRemoteIDs g h)
    with (for_range RemoveRemoteID (Group_GetUsers g) h).
  destruct (for_range RemoveRemoteID (Group_GetUsers g) h) as [h1|]; [|done].
  apply IH.
Qed.

(** X1.  [RemoveRemoteIDs] on a [Groups] value does what [RemoveRemoteIDs]
    does on a [Users] value that lists the users of all its groups, in the
    order the groups list them: the same heap, or the same panic. *)
Theorem Groups_RemoveRemoteIDs_flattens (gs : option Groups) h :
  Groups_RemoveRemoteIDs gs h
  = Users_RemoveRemoteIDs (Some (mkUsers (Groups_members gs))) h.
Proof. apply Groups_RemoveRemoteIDs_members. Qed.

(** X2.  [RemoveRemoteIDs] runs to completion exactly when every user
    pointer it meets can be dereferenced: one nil pointer among the users
    of a [Users] value, or of any group of a [Groups] value, makes it
    panic, and nothing else does. *)
Theorem RemoveRemoteIDs_completes_iff_live h :
  (∀ u : option Users,
     is_Some (Users_RemoveRemoteIDs u h) ↔ Forall (live h) (Users_GetUsers u)) ∧
  (∀ gs : option Groups,
     is_Some (Groups_RemoveRemoteIDs gs h) ↔ Forall (live h) (Groups_members gs)).
Proof.
  assert (Hloop : ∀ us, is_Some (for_range RemoveRemoteID us h) ↔ Forall (live h) us).
  { intros us. split.
    - intros [h' Hrun]. by eapply for_range_RemoveRemoteID_Some.
    - intros Hall.
      destruct (ag_facts.for_range_RemoveRemoteID Profile us h Hall) as (h' & -> & _).
      eauto. }
  split.
  - intros u. apply Hloop.
  - intros gs. rewrite Groups_RemoveRemoteIDs_members. apply Hloop.
Qed.

(** The heap after a loop that finished, location by location. *)
Lemma for_range_RemoveRemoteID_lookup us h h' :
  for_range RemoveRemoteID us h = Some h' →
  ∀ l, h' !! l = if decide (Some l ∈ us) then void <$> h !! l else h !! l.
Proof.
  intros Hrun.
  destruct (ag_facts.for_range_RemoveRemoteID Profile us h
              (for_range_RemoveRemoteID_Some us h h' Hrun)) as (h2 & Hrun2 & Hchar).
  assert (h2 = h') as <- by congruence. exact Hchar.
Qed.


Lemma for_range_RemoveRemoteID_again us h h' :
  for_range RemoveRemoteID us h = Some h' →
  for_range RemoveRemoteID us h' = Some h'.
Proof.
  intros Hrun.
  pose proof (for_range_RemoveRemoteID_lookup us h h' Hrun) as Hchar.
  pose proof (for_range_RemoveRemoteID_Some us h h' Hrun) as Hlive.
  assert (Hlive' : Forall (live h') us).
  { eapply Forall_impl; [exact Hlive|]. intros p (l & -> & [u Hu]).
    exists l. split; [done|]. rewrite Hchar, Hu.
    destruct (decide (Some l ∈ us)); simpl; eauto. }
  destruct (ag_facts.for_range_RemoveRemoteID Profile us h' Hlive')
    as (h2 & -> & Hchar2).
  f_equal. apply map_eq. intros l. rewrite Hchar2, Hchar.
  destruct (decide (Some l ∈ us)); [|done]. by destruct (h !! l).
Qed.

(** X3.  Stripping twice is stripping once: a second [RemoveRemoteIDs] on
    the same [Users], [Group] or [Groups] value finishes and leaves the
    heap as the first one left it. *)
Theorem RemoveRemoteIDs_idempotent h h' :
  (∀ u : option Users,
     Users_RemoveRemoteIDs u h = Some h' → Users_RemoveRemoteIDs u h' = Some h') ∧
  (∀ g : option Group,
     Group_RemoveRemoteIDs g h = Some h' → Group_RemoveRemoteIDs g h' = Some h') ∧
  (∀ gs : option Groups,
     Groups_RemoveRemoteIDs gs h = Some h' → Groups_RemoveRemoteIDs gs h' = Some h').
Proof.
  split; [|split].
  - intros u. apply for_range_RemoveRemoteID_again.
  - intros g. apply for_range_RemoveRemoteID_again.
  - intros gs. rewrite !Groups_RemoveRemoteIDs_members.
    apply for_range_RemoveRemoteID_again.
Qed.


End WithProfile.


End ag_compose.

(** ** What [strconv.ParseUint] accepts *)

Module strconv_numerals.

Import strconv.

Lemma digit_lt c d : digit c = Some d → (d < 10)%N.
Proof.
  unfold digit. cbv zeta.
  destruct (N.leb_spec 48 (N_of_ascii c)); simpl; [|discriminate].
  destruct (N.leb_spec (N_of_ascii c) 57); [|discriminate].
  intros [= <-]. lia.
Qed.

Lemma decimal_value_ge s n : (n ≤ decimal_value s n)%N.
Proof.
  revert n. induction s as [|c s IH]; intros n; cbn [decimal_value]; [lia|].
  etransitivity; [|apply IH]. lia.
Qed.

Lemma wrap64_small n : (n < 2 ^ 64)%N → wrap64 n = n.
Proof. intros Hn. unfold wrap64. by apply N.mod_small. Qed.

(** A sum that passes 2^64 by less than 2^64 wraps to below its first
    summand. *)
Lemma wrap64_overflow a d :
  (a < 2 ^ 64)%N → (d < 2 ^ 64)%N → (2 ^ 64 ≤ a + d)%N → (wrap64 (a + d) < a)%N.
Proof.
  intros Ha Hd Hsum. unfold wrap64.
  assert (H64 : (2 ^ 64 = 18446744073709551616)%N) by reflexivity.
  rewrite H64 in *.
  pose proof (N.div_mod (a + d) 18446744073709551616 ltac:(lia)) as Hdm.
  pose proof (N.mod_lt (a + d) 18446744073709551616 ltac:(lia)) as Hlt.
  assert (Hq : (1 ≤ (a + d) / 18446744073709551616)%N).
  { destruct (N.le_gt_cases 1 ((a + d) / 18446744073709551616)) as [|Hq]; [done|].
    assert (((a + d) / 18446744073709551616 = 0)%N) as Hz by lia.
    rewrite Hz in Hdm. lia. }
  lia.
Qed.

(** The loop against the numeral it reads: it succeeds exactly on digits
    whose value stays below 2^64, and then returns that value. *)
Lemma ParseUint_loop_numeral s n :
  (n < 2 ^ 64)%N →
  match ParseUint_loop s n with
  | inr m => all_digits s = true ∧ decimal_value s n = m ∧ (m < 2 ^ 64)%N
  | inl _ => all_digits s = false ∨ (2 ^ 64 ≤ decimal_value s n)%N
  end.
Proof.
  assert (H64 : (2 ^ 64 = 18446744073709551616)%N) by reflexivity.
  assert (Hcut : (maxUint64 / 10 + 1 = 1844674407370955162)%N) by reflexivity.
  assert (Hmax : (maxUint64 = 18446744073709551615)%N) by reflexivity.
  revert n. induction s as [|c s IH]; intros n Hn.
  { cbn. done. }
  cbn [ParseUint_loop all_digits decimal_value].
  destruct (digit c) as [d|] eqn:Hd; [|by left].
  apply digit_lt in Hd. simpl. rewrite Hcut, Hmax.
  pose proof (decimal_value_ge s (n * 10 + d)) as Hge.
  destruct (N.leb_spec 1844674407370955162 n) as [Hbig|Hsmall].
  { right. lia. }
  rewrite (wrap64_small (n * 10)) by lia.
  destruct (N.le_gt_cases (2 ^ 64) (n * 10 + d)) as [Hover|Hfit].
  - pose proof (wrap64_overflow (n * 10) d ltac:(lia) ltac:(lia) Hover) as Hw.
    apply N.ltb_lt in Hw. rewrite Hw. simpl. right. lia.
  - rewrite wrap64_small by done.
    destruct (N.ltb_spec (n * 10 + d) (n * 10)); [lia|].
    destruct (N.ltb_spec 18446744073709551615 (n * 10 + d)); [lia|].
    simpl. by apply IH.
Qed.

(** [ParseUint] returns a number exactly for the numerals that fit a
    [uint64], and then the number they denote; any other string gets a
    [NumError] that names the function and the string. *)
Lemma ParseUint_numeral s :
  match numeral s with
  | Some n => ParseUint s = inr n
  | None => ∃ e, ParseUint s = inl (NumError "ParseUint" s e)
  end.
Proof.
  destruct s as [|c s]; [cbn; eauto|].
  unfold numeral, ParseUint.
  pose proof (ParseUint_loop_numeral (String c s) 0 ltac:(done)) as Hloop.
  destruct (ParseUint_loop (String c s) 0) as [e|m].
  - destruct Hloop as [->|Hbig]; [simpl; eauto|].
    apply N.ltb_ge in Hbig. rewrite Hbig, andb_false_r. eauto.
  - destruct Hloop as (-> & -> & Hm). apply N.ltb_lt in Hm. by rewrite Hm.
Qed.

Lemma numeral_lt s n : numeral s = Some n → (n < 2 ^ 64)%N.
Proof.
  destruct s as [|c s]; [discriminate|]. unfold numeral.
  destruct (all_digits _); cbn [andb]; [|discriminate].
  destruct (N.ltb _ _) eqn:Hlt; [|discriminate].
  intros [= <-]. by apply N.ltb_lt.
Qed.

Lemma numeral_FormatUint n : (n < 2 ^ 64)%N → numeral (FormatUint n) = Some n.
Proof.
  intros Hn. pose proof (ParseUint_numeral (FormatUint n)) as Hs.
  rewrite strconv_facts.ParseUint_FormatUint in Hs by done.
  destruct (numeral (FormatUint n)) as [m|].
  - by injection Hs as ->.
  - destruct Hs as [e He]. discriminate.
Qed.

Example numeral_leading_zeros : numeral "0042" = Some 42%N.
Proof. reflexivity. Qed.

Example numeral_letter : numeral "4x2" = None.
Proof. reflexivity. Qed.

Example numeral_too_big : numeral "18446744073709551616" = None.
Proof. reflexivity. Qed.

End strconv_numerals.

(** ** More on the handlers *)

Module web_more.

Import web fixtures.

Section Handlers.

Variable Profile : Type.
Variable D : Database Profile.

Implicit Types (db : conn D) (c : Context Profile) (cr : NewCourseRequest).

(** X5.  [GetUser] reads the path parameter as a decimal numeral.  When the
    parameter is empty, holds a byte other than a digit, or denotes 0 or a
    number that does not fit 64 bits, the answer is 400 "invalid user id"
    whatever the database holds; otherwise the database is asked for the
    user with exactly the number denoted (leading zeros do not matter), and
    the answer is 404 without content if it reports the record as not
    found, its error if it fails otherwise, and the user with status 302 if
    it returns one. *)
Theorem GetUser_by_numeral db c :
  (strconv.numeral (Param c "id") = None ∨
   strconv.numeral (Param c "id") = Some 0%N →
   GetUser D db c = Failed (NewHTTPError StatusBadRequest "invalid user id")) ∧
  (∀ id, strconv.numeral (Param c "id") = Some id → id ≠ 0%N →
     GetUser D db c
     = match db_GetUser D db id with
       | inl ErrRecordNotFound => Responded StatusNotFound NoContent
       | inl err => Failed err
       | inr user => Responded StatusFound (JSON_User user)
       end).
Proof.
  pose proof (strconv_numerals.ParseUint_numeral (Param c "id")) as Hp.
  unfold GetUser. split.
  - intros [Hn|Hn]; rewrite Hn in Hp.
    + destruct Hp as [e ->]. done.
    + by rewrite Hp.
  - intros id Hn Hid. rewrite Hn in Hp. rewrite Hp.
    apply N.eqb_neq in Hid. by rewrite Hid.
Qed.

(** X6.  [ListCourses] reads the [user] query parameter as a decimal
    numeral.  When the parameter is absent or empty, holds a byte other
    than a digit, or does not fit 64 bits, the handler returns the parse
    error and lists nothing; for a numeral of 0 it answers with
    [db.GetCourses], for a numeral of a positive number with
    [db.GetCoursesForUser] of that number, in both cases 200 with the
    courses, or the error of the database. *)
Theorem ListCourses_by_numeral db c :
  (strconv.numeral (QueryParam c "user") = None →
   ∃ e, ListCourses D db c
        = Failed (NumError "ParseUint" (QueryParam c "user") e)) ∧
  (strconv.numeral (QueryParam c "user") = Some 0%N →
   ListCourses D db c
   = match db_GetCourses D db with
     | inl err => Failed err
     | inr cs => Responded StatusOK (JSON_Courses cs)
     end) ∧
  (∀ id, strconv.numeral (QueryParam c "user") = Some id → id ≠ 0%N →
     ListCourses D db c
     = match db_GetCoursesForUser D db id with
       | inl err => Failed err
       | inr cs => Responded StatusOK (JSON_Courses cs)
       end).
Proof.
  pose proof (strconv_numerals.ParseUint_numeral (QueryParam c "user")) as Hp.
  unfold ListCourses. split; [|split].
  - intros Hn. rewrite Hn in Hp. destruct Hp as [e ->]. eauto.
  - intros Hn. rewrite Hn in Hp. by rewrite Hp.
  - intros id Hn Hid. rewrite Hn in Hp. rewrite Hp.
    assert (Hpos : (0 <? id)%N = true) by (apply N.ltb_lt; lia).
    by rewrite Hpos.
Qed.

(** X7.  [GetSelf] redirects (302) to /api/v1/users/ followed by the
    decimal numeral of the caller's id, and that numeral is one [GetUser]
    reads back as the same id: a request whose [id] parameter is the last
    segment of the redirect gets the caller's own record from the database
    (400 if the caller's id is 0).  Without a user in the context [GetSelf]
    panics. *)
Theorem GetSelf_leads_to_GetUser c :
  (∀ u, Get c "user" = Some (UserValue u) → (ag.ID u < 2 ^ 64)%N →
     ∃ s, GetSelf c = Redirected StatusFound ("/api/v1/users/" +:+ s) ∧
          ∀ db c', params c' !! "id" = Some s →
            GetUser D db c'
            = if (ag.ID u =? 0)%N
              then Failed (NewHTTPError StatusBadRequest "invalid user id")
              else match db_GetUser D db (ag.ID u) with
                   | inl ErrRecordNotFound => Responded StatusNotFound NoContent
                   | inl err => Failed err
                   | inr user => Responded StatusFound (JSON_User user)
                   end) ∧
  (Get c "user" = None → GetSelf c = Panicked).
Proof.
  split.
  - intros u Hu Hid. exists (strconv.FormatUint (ag.ID u)). split.
    + unfold GetSelf. by rewrite Hu.
    + intros db c' Hparam. unfold GetUser, Param. rewrite Hparam. simpl.
      by rewrite strconv_facts.ParseUint_FormatUint.
  - intros Hu. unfold GetSelf. by rewrite Hu.
Qed.

(** X8.  Whenever [NewCourse] writes a response, it is 201 with a course,
    and then the request was valid, the caller's client returned a
    directory for the requested id, and the insert succeeded: the course
    has the name, code, year, tag and provider of the request, the id of
    the directory the client returned, and the row id the insert gave;
    the database is in the state the insert left.  [NewCourse] never
    redirects. *)
Theorem NewCourse_response_is_created db c :
  let '(db', calls, out) := NewCourse D db c in
  match out with
  | Responded st p =>
      ∃ cr d id,
        directory_verified c cr d ∧
        db_CreateCourse D db (course_of cr d) = (db', inr id) ∧
        st = StatusCreated ∧
        p = JSON_Course
              {| models.ID := id;
                 models.Name := Name cr;
                 models.Code := Code cr;
                 models.Year := Year cr;
                 models.Tag := Tag cr;
                 models.Provider := Provider cr;
                 models.DirectoryID := scm.ID d |}
  | Redirected _ _ => False
  | Failed _ | Panicked => True
  end.
Proof.
  destruct (web_facts.directory_verified_or_not Profile c) as [(cr & d & Hv)|Hnot].
  - rewrite (web_facts.NewCourse_verified Profile D db c cr d Hv). cbv zeta.
    destruct (db_CreateCourse D db (course_of cr d)) as [db' [err|id]] eqn:Hins;
      [done|].
    exists cr, d, id. done.
  - destruct (web_facts.NewCourse_not_verified Profile D db c Hnot)
      as (calls & out & -> & _ & [->|[err ->]]); done.
Qed.

(** X9.  What [NewCourse] asks of its collaborators.  It makes at most two
    calls.  It looks a directory up only for a provider named "github" or
    "gitlab" and never for directory id 0.  The record it hands to the
    database has row id 0 (the database is to assign one), a non-empty
    name, code and tag, a year that is not 0 and provider "github" or
    "gitlab". *)
Theorem NewCourse_calls_wellformed db c :
  let calls := (NewCourse D db c).1.2 in
  length calls ≤ 2 ∧
  (∀ p i, Call_GetDirectory p i ∈ calls →
     (p = "github" ∨ p = "gitlab") ∧ i ≠ 0%N) ∧
  (∀ course, Call_CreateCourse course ∈ calls →
     models.ID course = 0%N ∧
     models.Name course ≠ "" ∧ models.Code course ≠ "" ∧
     models.Tag course ≠ "" ∧ models.Year course ≠ 0%N ∧
     (models.Provider course = "github" ∨ models.Provider course = "gitlab")).
Proof.
  cbv zeta. unfold NewCourse.
  assert (Hnil : ∀ db' (out : Outcome Profile),
            length (db', @nil Call, out).1.2 ≤ 2 ∧
            (∀ p i, Call_GetDirectory p i ∈ (db', @nil Call, out).1.2 →
               (p = "github" ∨ p = "gitlab") ∧ i ≠ 0%N) ∧
            (∀ course, Call_CreateCourse course ∈ (db', @nil Call, out).1.2 →
               models.ID course = 0%N ∧
               models.Name course ≠ "" ∧ models.Code course ≠ "" ∧
               models.Tag course ≠ "" ∧ models.Year course ≠ 0%N ∧
               (models.Provider course = "github" ∨
                models.Provider course = "gitlab"))).
  { intros db' out. simpl. split; [lia|].
    split.
    - intros p i Hin. by apply elem_of_nil in Hin.
    - intros course Hin. by apply elem_of_nil in Hin. }
  destruct (Bind c) as [err|cr]; [apply Hnil|].
  destruct (valid (Some cr)) eqn:Hv; cbn [negb]; [|apply Hnil].
  apply web_facts.valid_Some in Hv as (HN & HC & HP & HD & HY & HT).
  destruct (Get c (Provider cr)) as [[u|s]|]; [apply Hnil| |apply Hnil].
  destruct (scm.GetDirectory s (DirectoryID cr)) as [err|d].
  - simpl. split; [lia|]. split.
    + intros p i Hin. apply list_elem_of_singleton in Hin. by injection Hin as -> ->.
    + intros course Hin. apply list_elem_of_singleton in Hin. discriminate.
  - destruct (db_CreateCourse D db _) as [db' [err|id]]; simpl.
    all: split; [lia|]; split.
    all: try (intros p i Hin; apply elem_of_cons in Hin as [Hin|Hin];
              [by injection Hin as -> ->
              |apply list_elem_of_singleton in Hin; discriminate]).
    all: intros course Hin; apply elem_of_cons in Hin as [Hin|Hin];
         [discriminate|]; apply list_elem_of_singleton in Hin;
         injection Hin as ->; done.
Qed.

(** X15.  When the directory was found and the insert fails, [NewCourse]
    returns the error of the insert after its two calls and answers with no
    course; the database is left in the state the failed insert left it
    in. *)
Theorem NewCourse_insert_fails db c cr d db' err :
  directory_verified c cr d →
  db_CreateCourse D db (course_of cr d) = (db', inl err) →
  NewCourse D db c
  = (db',
     [Call_GetDirectory (Provider cr) (DirectoryID cr);
      Call_CreateCourse (course_of cr d)],
     Failed err).
Proof.
  intros Hv Hins.
  rewrite (web_facts.NewCourse_verified Profile D db c cr d Hv). cbv zeta.
  by rewrite Hins.
Qed.

End Handlers.

Lemma NewCourse_insert_fails_witness :
  NewCourse refusingDB st0 (post_course [uis_dat320] dat320)
  = (st0,
     [Call_GetDirectory "github" 42%N;
      Call_CreateCourse (course_of dat320 uis_dat320)],
     Failed (errors_New "database is locked")).
Proof.
  apply (NewCourse_insert_fails string refusingDB st0
           (post_course [uis_dat320] dat320) dat320 uis_dat320 st0).
  - split; [reflexivity|]. split; [reflexivity|].
    exists (memdb.lookupSCM [uis_dat320]). split; [vm_compute|]; reflexivity.
  - reflexivity.
Defined.

Example GetUser_leading_zeros :
  GetUser (memdb.DB string) st0 (get_user "0002")
  = Responded StatusFound (JSON_User bob).
Proof. vm_compute. reflexivity. Qed.

Example GetUser_not_a_number :
  GetUser (memdb.DB string) st0 (get_user "2a")
  = Failed (NewHTTPError StatusBadRequest "invalid user id").
Proof. vm_compute. reflexivity. Qed.

Example ListCourses_not_a_number :
  ListCourses (memdb.DB string) st0 (get_courses {[ "user" := "me" ]})
  = Failed (NumError "ParseUint" "me" ErrSyntax).
Proof. vm_compute. reflexivity. Qed.

End web_more.

(** ** The providers of course validation and of the factory *)

Module scm_more.

Import scm web.

(** X10.  Course validation and the client factory agree on the provider
    names: for a request that [valid] accepts, [NewSCMClient] returns a
    client and no error for the request's provider; and a request with all
    other fields filled in whose provider [NewSCMClient] has a client for
    is one that [valid] accepts. *)
Theorem valid_provider_has_client (github gitlab : string → SCM)
    (token : string) (cr : NewCourseRequest) :
  (valid (Some cr) = true →
   ∃ s, NewSCMClient github gitlab (Provider cr) token = (Some s, None)) ∧
  (Name cr ≠ "" ∧ Code cr ≠ "" ∧ Tag cr ≠ "" ∧
   Year cr ≠ 0%N ∧ DirectoryID cr ≠ 0%N →
   (∃ s, NewSCMClient github gitlab (Provider cr) token = (Some s, None)) →
   valid (Some cr) = true).
Proof.
  split.
  - intros Hv.
    apply web_facts.valid_Some in Hv as (_ & _ & [Hp|Hp] & _);
      rewrite Hp; eexists; reflexivity.
  - intros (HN & HC & HT & HY & HD) [s Hs].
    apply web_facts.valid_Some. repeat split; try done.
    unfold NewSCMClient in Hs.
    destruct (String.eqb_spec (Provider cr) "github"); [by left|].
    destruct (String.eqb_spec (Provider cr) "gitlab"); [by right|].
    discriminate.
Qed.

End scm_more.

(** ** The helpers of the server's set-up *)

Module main_facts.

Import main web fixtures.

Lemma list_ascii_of_string_app (s t : string) :
  String.list_ascii_of_string (s +:+ t)
  = String.list_ascii_of_string s ++ String.list_ascii_of_string t.
Proof.
  induction s as [|a s IH]; [done|].
  change (String a s +:+ t) with (String a (s +:+ t)).
  cbn [String.list_ascii_of_string]. by rewrite IH.
Qed.

Lemma append_inv_tail (s1 s2 t : string) : s1 +:+ t = s2 +:+ t → s1 = s2.
Proof.
  intros Heq. apply (f_equal String.list_ascii_of_string) in Heq.
  rewrite !list_ascii_of_string_app in Heq. apply app_inv_tail in Heq.
  apply (f_equal String.string_of_list_ascii) in Heq.
  by rewrite !String.string_of_list_ascii_of_string in Heq.
Qed.

Lemma append_inv_head (s t1 t2 : string) : s +:+ t1 = s +:+ t2 → t1 = t2.
Proof.
  induction s as [|a s IH]; [done|].
  change (String a s +:+ t1) with (String a (s +:+ t1)).
  change (String a s +:+ t2) with (String a (s +:+ t2)).
  intros [= Heq]. by apply IH.
Qed.

(** X11.  For one base URL, [getCallbackURL] gives different providers
    different callback URLs, and for one provider it gives different base
    URLs different callback URLs. *)
Theorem getCallbackURL_injective (baseURL baseURL' provider provider' : string) :
  (getCallbackURL baseURL provider = getCallbackURL baseURL provider' →
   provider = provider') ∧
  (getCallbackURL baseURL provider = getCallbackURL baseURL' provider →
   baseURL = baseURL').
Proof.
  unfold getCallbackURL. split; intros Heq.
  - do 3 apply append_inv_head in Heq. by apply append_inv_tail in Heq.
  - apply append_inv_head in Heq.
    by apply (append_inv_tail _ _ ("/auth/" +:+ provider +:+ "/callback")).
Qed.

Section Middleware.

Variable Profile : Type.


End Middleware.

(** The three providers that [main] registers get three callback URLs. *)
Example getCallbackURL_providers :
  getCallbackURL "localhost" "github" = "https://localhost/auth/github/callback" ∧
  getCallbackURL "localhost" "gitlab" = "https://localhost/auth/gitlab/callback" ∧
  getCallbackURL "localhost" "fake" = "https://localhost/auth/fake/callback".
Proof. repeat split. Qed.

(** A client that asks for /auth/github?provider=gitlab is handled as
    github. *)
Example withProvider_overrides :
  withProvider (λ c, QueryParam c "provider")
    (mkContext {[ "provider" := "github" ]} {[ "provider" := "gitlab" ]} ∅
       (inl (errors_New "EOF")) : Context string)
  = "github".
Proof. vm_compute. reflexivity. Qed.

End main_facts.

(** ** The course form *)

Module CourseForm_facts.

Import CourseForm.

Section Validate.

Variable number : Type.
Variable parseInt : string → number.
Variable isNaN : number → bool.
Variable lt : number → number → bool.
Variable is_zero : number → bool.

Implicit Types (state : ICourseFormStates number) (fullYear : number).

(** X13.  [courseValidate] reports no error exactly when name, code, tag,
    provider and year are not blank, the organisation id is not 0, and the
    year parses to a number that is not below the current year. *)
Theorem courseValidate_passes state fullYear :
  courseValidate parseInt isNaN lt is_zero state fullYear = [] ↔
  name state ≠ "" ∧ code state ≠ "" ∧ tag state ≠ "" ∧ provider state ≠ "" ∧
  is_zero (orgid state) = false ∧ year state ≠ "" ∧
  isNaN (parseInt (year state)) = false ∧
  lt (parseInt (year state)) fullYear = false.
Proof.
  unfold courseValidate, push. cbv zeta.
  destruct (String.eqb_spec (name state) "");
    destruct (String.eqb_spec (code state) "");
    destruct (String.eqb_spec (tag state) "");
    destruct (String.eqb_spec (provider state) "");
    destruct (is_zero (orgid state));
    destruct (String.eqb_spec (year state) "");
    destruct (isNaN (parseInt (year state)));
    destruct (lt (parseInt (year state)) fullYear);
    cbn [app]; (split; [discriminate || done | intros (? & ? & ? & ? & ? & ? & ? & ?); done]).
Qed.

(** X14.  The errors of [courseValidate] come in the order of its checks
    and none comes twice; there are at most six, of which at most one is
    about the year. *)
Theorem courseValidate_errors_ordered state fullYear :
  sublist (courseValidate parseInt isNaN lt is_zero state fullYear) messages ∧
  length (courseValidate parseInt isNaN lt is_zero state fullYear) ≤ 6 ∧
  length (filter (λ m, m ∈ ["Year cannot be blank."; "Year must be a number";
                            "Year must be greater or equal to current year"])
            (courseValidate parseInt isNaN lt is_zero state fullYear)) ≤ 1.
Proof.
  unfold courseValidate, push, messages. cbv zeta.
  destruct (String.eqb (name state) "");
    destruct (String.eqb (code state) "");
    destruct (String.eqb (tag state) "");
    destruct (String.eqb (provider state) "");
    destruct (is_zero (orgid state));
    destruct (String.eqb (year state) "");
    destruct (isNaN (parseInt (year state)));
    destruct (lt (parseInt (year state)) fullYear);
    cbn [app]; (split; [|split; [cbn; lia|vm_compute; lia]]);
    repeat first [apply sublist_nil | apply sublist_skip_all
                 | apply sublist_skip | apply sublist_cons].
Qed.

End Validate.

End CourseForm_facts.
